(** * DLHub publishing tutorials: a model of the two notebooks

    The repository holds two Jupyter notebooks.  The first trains a small
    Keras convnet on MNIST, describes it with [KerasModel.create_model] and
    publishes it; the second describes the Iris data set with
    [TabularDataset], trains a scikit-learn [SVC], describes it with
    [ScikitLearnModel.create_model] and publishes it.

    Every cell is transcribed as a program of a small state-and-exception
    monad.  A step that leaves the notebook (an import, a call into Keras,
    scikit-learn, pandas, the DLHub SDK, [print]) is recorded in a trace
    and may raise, as decided by the world the notebook runs in.  What the
    cells compute themselves on arrays and data frames (reshape, slices,
    column selection) is modelled as pure functions. *)

From Stdlib Require Import String Ascii ZArith Lia Bool Arith DecimalString List.
Import ListNotations.
Set Warnings "-register-all".
Open Scope string_scope.
Open Scope list_scope.
Open Scope nat_scope.

(** ** Python values the cells compute with *)

(** Exceptions a cell's own computation can raise. *)
Inductive PyErr :=
| NameError (name : string)
| ValueError
| IndexError
| KeyError (key : string)
| AttributeError (attribute : string).

(** The result of a pure computation of a cell. *)
Inductive Res (A : Type) :=
| Ok (a : A)
| Raised (e : PyErr).
Arguments Ok {A} a.
Arguments Raised {A} e.

(** [str(n)] for a non-negative integer. *)
Definition str (n : nat) : string := NilEmpty.string_of_uint (Nat.to_uint n).

(** [range(n)]. *)
Definition range (n : nat) : list nat := seq 0 n.

Module Slice.

(** A bound of [l[start:stop]] as CPython adjusts it for a sequence of
    length [len]: a negative bound counts from the end, and every bound
    is clipped to [0 .. len]. *)
Definition adjust (bound : option Z) (default len : Z) : Z :=
  match bound with
  | None => default
  | Some b => if (b <? 0)%Z then Z.max (b + len) 0 else Z.min b len
  end.

(** The half-open range of positions [l[start:stop]] selects. *)
Definition bounds (start stop : option Z) (len : nat) : nat * nat :=
  let n := Z.of_nat len in
  (Z.to_nat (adjust start 0 n), Z.to_nat (adjust stop n n)).

Definition selects (start stop : option Z) (len i : nat) : bool :=
  let '(lo, hi) := bounds start stop len in
  (lo <=? i) && (i <? hi).

(** [l[start:stop]]. *)
Definition slice {A} (start stop : option Z) (l : list A) : list A :=
  let '(lo, hi) := bounds start stop (length l) in
  firstn (hi - lo) (skipn lo l).

(** [l[i]], which raises [IndexError] out of range. *)
Definition index {A} (i : Z) (l : list A) : Res A :=
  let n := Z.of_nat (length l) in
  let j := if (i <? 0)%Z then (i + n)%Z else i in
  if ((0 <=? j) && (j <? n))%Z
  then match nth_error l (Z.to_nat j) with
       | Some x => Ok x
       | None => Raised IndexError
       end
  else Raised IndexError.

End Slice.

(** ** numpy arrays

    An array is its shape and its elements in row-major order.  Elements
    stay symbolic: the notebooks only cast and divide them. *)

Inductive scalar :=
| Raw (z : Z)                          (* an element as the data set holds it *)
| Cast (dtype : string) (s : scalar)   (* [astype(dtype)] *)
| Div (s : scalar) (d : Z).            (* [/= d] *)

Record ndarray := { shape : list nat; data : list scalar }.

Definition prod (dims : list nat) : nat := fold_right Nat.mul 1 dims.

(** [a.size]. *)
Definition size (a : ndarray) : nat := length (data a).

Definition wf (a : ndarray) : Prop := size a = prod (shape a).

(** [a.shape[0]]. *)
Definition shape0 (a : ndarray) : Res nat := Slice.index 0 (shape a).

(** [a.reshape(d1, ..., dk)]: the elements are kept, and the new shape must hold
    exactly as many. *)
Definition reshape (a : ndarray) (dims : list nat) : Res ndarray :=
  if prod dims =? size a
  then Ok {| shape := dims; data := data a |}
  else Raised ValueError.

(** [a.astype(dtype)]. *)
Definition astype (dtype : string) (a : ndarray) : ndarray :=
  {| shape := shape a; data := map (Cast dtype) (data a) |}.

(** [a /= d]. *)
Definition itruediv (a : ndarray) (d : Z) : ndarray :=
  {| shape := shape a; data := map (fun s => Div s d) (data a) |}.

(** [a[:stop]]: a slice along the first axis. *)
Definition take_rows (stop : Z) (a : ndarray) : Res ndarray :=
  match shape a with
  | [] => Raised IndexError
  | n :: rest =>
      let '(lo, hi) := Slice.bounds None (Some stop) n in
      Ok {| shape := (hi - lo) :: rest;
            data := firstn ((hi - lo) * prod rest) (skipn (lo * prod rest) (data a)) |}
  end.

(** ** pandas data frames *)

Record DataFrame := { columns : list string; rows : list (list string) }.

(** [data.values[:, start:stop]]. *)
Definition values_cols (start stop : option Z) (d : DataFrame) : list (list string) :=
  map (Slice.slice start stop) (rows d).

(** [data.values[:, i]]. *)
Definition values_col (i : Z) (d : DataFrame) : Res (list string) :=
  match Slice.index i (seq 0 (length (columns d))) with
  | Ok j => Ok (map (fun r => nth j r "") (rows d))
  | Raised e => Raised e
  end.

Fixpoint index_of (name : string) (l : list string) : option nat :=
  match l with
  | [] => None
  | x :: l' => if String.eqb x name then Some 0 else option_map S (index_of name l')
  end.

(** [Series.unique()]: the distinct values in order of first appearance. *)
Fixpoint unique (l : list string) : list string :=
  match l with
  | [] => []
  | x :: l' => x :: filter (fun y => negb (String.eqb x y)) (unique l')
  end.

(** How many columns carry the label. *)
Definition label_count (name : string) (d : DataFrame) : nat :=
  length (filter (String.eqb name) (columns d)).

(** [data[name].unique()].  Without a column of that label the subscript
    raises [KeyError]; with several, the subscript yields a data frame,
    which has no [unique]. *)
Definition column_unique (name : string) (d : DataFrame) : Res (list string) :=
  match index_of name (columns d) with
  | Some j =>
      if 1 <? label_count name d
      then Raised (AttributeError "unique")
      else Ok (unique (map (fun r => nth j r "") (rows d)))
  | None => Raised (KeyError name)
  end.

(** ** Steps that leave the notebook

    An object made by a library is known to the notebook only as a
    reference; [cls] records the fully qualified callable that made it, so
    that a method call can be attributed to the library it belongs to. *)

Record Obj := { oid : nat; cls : list string }.

Inductive Arg :=
| AInt (z : Z)
| AStr (s : string)
| AFloat (literal : string)
| ABool (b : bool)
| ATuple (items : list Arg)
| AList (items : list Arg)
| AKw (name : string) (value : Arg)
| ADict (items : list (string * Arg))
| ARef (o : Obj)
| ASym (qual : list string)
| AArr (a : ndarray)
| ATable (cells : list (list string)).

Inductive Target :=
| Fn (qual : list string)             (* a callable reached through an imported name *)
| Meth (recv : Obj) (name : string)   (* [recv.name(...)] *)
| GetItem (recv : Obj)                (* [recv[key]] *)
| SetItem (recv : Obj).               (* [recv[key] = value] *)

Inductive Event :=
| Import (modpath : list string) (members : list string)
| Call (target : Target) (args : list Arg) (ret : Obj)
| Print (args : list Arg).

(** The data the libraries hand back to the notebook. *)
Record Libs := {
  lib_mnist : (ndarray * ndarray) * (ndarray * ndarray);
  lib_image_data_format : string;
  lib_to_categorical : ndarray -> Z -> ndarray;
  lib_read_csv : string -> DataFrame
}.

(** What the notebook cannot decide: which step raises, and that data. *)
Record World := {
  w_fault : nat -> option string;
  w_libs : Libs
}.

(** The interpreter state shared by the cells of one notebook: the steps
    done so far, the names bound by import statements, the files open,
    and the identifier of the next object. *)
Record State := {
  trace : list Event;
  names : list (string * list string);
  opened : list nat;
  fresh : nat
}.

Definition init : State :=
  {| trace := []; names := [("open", ["builtins"; "open"])]; opened := []; fresh := 0 |}.

(** An exception on its way out of a cell: raised by the library called
    at step [step] of the run, or by the cell's own computation. *)
Inductive Exn :=
| Library (step : nat) (name : string)
| Local (e : PyErr).

(** How a cell ends. *)
Inductive Exit (A : Type) :=
| Normal (a : A)
| Uncaught (e : Exn).
Arguments Normal {A} a.
Arguments Uncaught {A} e.

Definition M (A : Type) : Type := World -> State -> Exit A * State.

Definition ret {A} (a : A) : M A := fun _ st => (Normal a, st).

Definition bind {A B} (m : M A) (f : A -> M B) : M B := fun w st =>
  match m w st with
  | (Normal a, st') => f a w st'
  | (Uncaught e, st') => (Uncaught e, st')
  end.

Declare Scope py_scope.
Delimit Scope py_scope with py.
Notation "x <- m ;; k" := (bind m (fun x => k))
  (at level 61, m at next level, right associativity) : py_scope.
Notation "' pat <- m ;; k" := (bind m (fun x => match x with pat => k end))
  (at level 61, pat pattern, m at next level, right associativity) : py_scope.
Notation "m ;; k" := (bind m (fun _ => k))
  (at level 61, right associativity) : py_scope.
Open Scope py_scope.

(** A pure computation of the cell that may raise. *)
Definition lift {A} (r : Res A) : M A := fun _ st =>
  match r with
  | Ok a => (Normal a, st)
  | Raised e => (Uncaught (Local e), st)
  end.

(** Data a library hands back. *)
Definition ask {A} (f : Libs -> A) : M A := fun w st => (Normal (f (w_libs w)), st).

(** One step outside: it raises if the world says so, else it is appended
    to the trace and yields a fresh reference. *)
Definition step (made_by : list string) (ev : Obj -> Event) : M Obj := fun w st =>
  let k := length (trace st) in
  match w_fault w k with
  | Some name => (Uncaught (Library k name), st)
  | None =>
      let o := {| oid := fresh st; cls := made_by |} in
      (Normal o, {| trace := trace st ++ [ev o]; names := names st; opened := opened st;
                    fresh := S (fresh st) |})
  end.

Fixpoint lookup (name : string) (env : list (string * list string)) : option (list string) :=
  match env with
  | [] => None
  | (n, q) :: env' => if String.eqb n name then Some q else lookup name env'
  end.

(** A dotted name as the cell writes it, resolved through the imports. *)
Definition resolve (path : list string) : M (list string) := fun _ st =>
  match path with
  | [] => (Uncaught (Local (NameError "")), st)
  | head :: attrs =>
      match lookup head (names st) with
      | Some q => (Normal (q ++ attrs), st)
      | None => (Uncaught (Local (NameError head)), st)
      end
  end.

Definition bind_names (bs : list (string * list string)) : M unit := fun _ st =>
  (Normal tt, {| trace := trace st; names := bs ++ names st; opened := opened st;
                 fresh := fresh st |}).

(** [import m] and [import m as alias]. *)
Definition import_module (m : list string) (alias : option string) : M unit :=
  step m (fun _ => Import m []) ;;
  bind_names [(match alias with Some a => a | None => hd "" m end, m)].

(** [from m import a, b as c]. *)
Definition from_import (m : list string) (members : list (string * option string)) : M unit :=
  step m (fun _ => Import m (map fst members)) ;;
  bind_names (map (fun '(a, alias) =>
                     (match alias with Some c => c | None => a end, m ++ [a])) members).

(** [f(args)] for a dotted global name [f]. *)
Definition call (path : list string) (args : list Arg) : M Obj :=
  q <- resolve path ;;
  step q (Call (Fn q) args).

(** [f(args)] where the notebook goes on computing with what [f] returns. *)
Definition call_returning {A} (path : list string) (args : list Arg) (result : Libs -> A) : M A :=
  call path args ;;
  ask result.

(** A value named by a dotted global name, passed as an argument. *)
Definition ref (path : list string) : M Arg :=
  q <- resolve path ;;
  ret (ASym q).

Definition method (recv : Obj) (name : string) (args : list Arg) : M Obj :=
  step (cls recv ++ [name]) (Call (Meth recv name) args).

Definition getitem (recv : Obj) (key : Arg) : M Obj :=
  step (cls recv ++ ["[]"]) (Call (GetItem recv) [key]).

Definition setitem (recv : Obj) (key value : Arg) : M Obj :=
  step (cls recv ++ ["[]="]) (Call (SetItem recv) [key; value]).

Definition print (args : list Arg) : M unit :=
  step ["builtins"; "print"] (fun _ => Print args) ;;
  ret tt.

Definition set_opened (f : list nat -> list nat) : M unit := fun _ st =>
  (Normal tt, {| trace := trace st; names := names st; opened := f (opened st);
                 fresh := fresh st |}).

Definition close (fp : Obj) (st : State) : State :=
  {| trace := trace st; names := names st;
     opened := filter (fun i => negb (i =? oid fp)) (opened st); fresh := fresh st |}.

(** Run [m], then close [fp] however [m] ended. *)
Definition closing {A} (fp : Obj) (m : M A) : M A := fun w st =>
  let '(r, st') := m w st in
  (r, close fp st').

(** [with open(path, mode) as fp: body]: the file is closed when the body
    ends, also when it raises, and the exception goes on. *)
Definition with_open {A} (path mode : string) (body : Obj -> M A) : M A :=
  fp <- call ["open"] [AStr path; AStr mode] ;;
  set_opened (cons (oid fp)) ;;
  closing fp (body fp).

Definition run {A} (nb : M A) (w : World) : Exit A * State := nb w init.

Definition shape_arg (a : ndarray) : Arg :=
  ATuple (map (fun n => AInt (Z.of_nat n)) (shape a)).

Definition strs (l : list string) : Arg := AList (map AStr l).

(** ** The Keras notebook *)

Module KerasNotebook.

Definition batch_size : Z := 128.
Definition num_classes : Z := 10.
Definition epochs : Z := 4.
Definition train_size : Z := 100.
Definition img_rows : nat := 28.
Definition img_cols : nat := 28.

(** The conditional on [K.image_data_format()]: both image arrays are
    reshaped to four axes, with the channel axis first or last. *)
Definition reshape_images (fmt : string) (x_train x_test : ndarray)
  : Res (ndarray * ndarray * list nat) :=
  if String.eqb fmt "channels_first" then
    match shape0 x_train with Raised e => Raised e | Ok n_train =>
    match reshape x_train [n_train; 1; img_rows; img_cols] with Raised e => Raised e | Ok x_train' =>
    match shape0 x_test with Raised e => Raised e | Ok n_test =>
    match reshape x_test [n_test; 1; img_rows; img_cols] with Raised e => Raised e | Ok x_test' =>
    Ok (x_train', x_test', [1; img_rows; img_cols])
    end end end end
  else
    match shape0 x_train with Raised e => Raised e | Ok n_train =>
    match reshape x_train [n_train; img_rows; img_cols; 1] with Raised e => Raised e | Ok x_train' =>
    match shape0 x_test with Raised e => Raised e | Ok n_test =>
    match reshape x_test [n_test; img_rows; img_cols; 1] with Raised e => Raised e | Ok x_test' =>
    Ok (x_train', x_test', [img_rows; img_cols; 1])
    end end end end.

Definition dims (l : list nat) : Arg := ATuple (map (fun n => AInt (Z.of_nat n)) l).

(** Cell 1: make a model using the MNIST dataset. *)
Definition train : M unit :=
  from_import ["__future__"] [("print_function", None)] ;;
  import_module ["keras"] None ;;
  from_import ["keras"; "datasets"] [("mnist", None)] ;;
  from_import ["keras"; "models"] [("Sequential", None)] ;;
  from_import ["keras"; "layers"] [("Dense", None); ("Dropout", None); ("Flatten", None)] ;;
  from_import ["keras"; "layers"] [("Conv2D", None); ("MaxPooling2D", None)] ;;
  from_import ["keras"] [("backend", Some "K")] ;;
  '(x_train, y_train, (x_test, y_test)) <- call_returning ["mnist"; "load_data"] [] lib_mnist ;;
  fmt <- call_returning ["K"; "image_data_format"] [] lib_image_data_format ;;
  '(x_train, x_test, input_shape) <- lift (reshape_images fmt x_train x_test) ;;
  let x_train := astype "float32" x_train in
  let x_test := astype "float32" x_test in
  let x_train := itruediv x_train 255 in
  let x_test := itruediv x_test 255 in
  print [AStr "x_train shape:"; shape_arg x_train] ;;
  n_train <- lift (shape0 x_train) ;;
  print [AInt (Z.of_nat n_train); AStr "train samples"] ;;
  n_test <- lift (shape0 x_test) ;;
  print [AInt (Z.of_nat n_test); AStr "test samples"] ;;
  y_train <- call_returning ["keras"; "utils"; "to_categorical"] [AArr y_train; AInt num_classes]
               (fun l => lib_to_categorical l y_train num_classes) ;;
  y_test <- call_returning ["keras"; "utils"; "to_categorical"] [AArr y_test; AInt num_classes]
              (fun l => lib_to_categorical l y_test num_classes) ;;
  model <- call ["Sequential"] [] ;;
  layer <- call ["Conv2D"] [AInt 32; AKw "kernel_size" (dims [3; 3]);
                            AKw "activation" (AStr "relu");
                            AKw "input_shape" (dims input_shape)] ;;
  method model "add" [ARef layer] ;;
  layer <- call ["Conv2D"] [AInt 64; dims [3; 3]; AKw "activation" (AStr "relu")] ;;
  method model "add" [ARef layer] ;;
  layer <- call ["MaxPooling2D"] [AKw "pool_size" (dims [2; 2])] ;;
  method model "add" [ARef layer] ;;
  layer <- call ["Dropout"] [AFloat "0.25"] ;;
  method model "add" [ARef layer] ;;
  layer <- call ["Flatten"] [] ;;
  method model "add" [ARef layer] ;;
  layer <- call ["Dense"] [AInt 128; AKw "activation" (AStr "relu")] ;;
  method model "add" [ARef layer] ;;
  layer <- call ["Dropout"] [AFloat "0.5"] ;;
  method model "add" [ARef layer] ;;
  layer <- call ["Dense"] [AInt num_classes; AKw "activation" (AStr "softmax")] ;;
  method model "add" [ARef layer] ;;
  loss <- ref ["keras"; "losses"; "categorical_crossentropy"] ;;
  optimizer <- call ["keras"; "optimizers"; "Adadelta"] [] ;;
  method model "compile" [AKw "loss" loss; AKw "optimizer" (ARef optimizer);
                          AKw "metrics" (strs ["accuracy"])] ;;
  x_fit <- lift (take_rows train_size x_train) ;;
  y_fit <- lift (take_rows train_size y_train) ;;
  method model "fit" [AArr x_fit; AArr y_fit;
                      AKw "batch_size" (AInt batch_size);
                      AKw "epochs" (AInt epochs);
                      AKw "verbose" (AInt 1);
                      AKw "validation_data" (ATuple [AArr x_test; AArr y_test])] ;;
  score <- method model "evaluate" [AArr x_test; AArr y_test; AKw "verbose" (AInt 0)] ;;
  loss <- getitem score (AInt 0) ;;
  print [AStr "Test loss:"; ARef loss] ;;
  accuracy <- getitem score (AInt 1) ;;
  print [AStr "Test accuracy:"; ARef accuracy] ;;
  method model "save" [AStr "keras_model.hd5"] ;;
  ret tt.

(** Cell 2: describe the model. *)
Definition describe : M Obj :=
  from_import ["dlhub_sdk"; "models"; "servables"; "keras"] [("KerasModel", None)] ;;
  call ["KerasModel"; "create_model"] [AStr "keras_model.hd5"; strs (map str (range 10))].

(** Cell 3: name, title and domain. *)
Definition enrich (model_info : Obj) : M unit :=
  method model_info "set_title" [AStr "MNIST Digit Classifier"] ;;
  method model_info "set_name" [AStr "mnist_tiny_example"] ;;
  method model_info "set_domains" [strs ["general"; "digit recognition"]] ;;
  ret tt.

(** [model_info['servable']['methods']['run'][io]['description'] = text]. *)
Definition set_description (model_info : Obj) (io text : string) : M unit :=
  servable <- getitem model_info (AStr "servable") ;;
  methods <- getitem servable (AStr "methods") ;;
  run_method <- getitem methods (AStr "run") ;;
  port <- getitem run_method (AStr io) ;;
  setitem port (AStr "description") (AStr text) ;;
  ret tt.

(** Cell 4: describe the outputs in more detail. *)
Definition describe_io (model_info : Obj) : M unit :=
  set_description model_info "output" "Probabilities of being 0-9" ;;
  set_description model_info "input" "Image of a digit".

Definition newline : string := String (ascii_of_nat 10) EmptyString.

(** Cell 5: print out the result. *)
Definition show (model_info : Obj) : M unit :=
  import_module ["json"] None ;;
  print [AStr (newline ++ "--> Model Information <--")%string] ;;
  d <- method model_info "to_dict" [] ;;
  text <- call ["json"; "dumps"] [ARef d; AKw "indent" (AInt 2)] ;;
  print [ARef text].

(** Cell 6: publish the model to DLHub. *)
Definition publish (model_info : Obj) : M unit :=
  import_module ["dlhub_sdk"] None ;;
  dl <- call ["dlhub_sdk"; "DLHubClient"] [] ;;
  task_id <- method dl "publish_servable" [ARef model_info] ;;
  print [ARef task_id].

(** The code cells in the order of the notebook. *)
Definition notebook : M unit :=
  train ;;
  model_info <- describe ;;
  enrich model_info ;;
  describe_io model_info ;;
  show model_info ;;
  publish model_info.

End KerasNotebook.

(** ** The scikit-learn notebook *)

Module SklearnNotebook.

Definition iris_csv : string := "scikit_learn_model/iris.csv".
Definition model_pkl : string := "scikit_learn_model/model.pkl".

(** [pd.read_csv('scikit_learn_model/iris.csv', header=1)]. *)
Definition read_iris : M DataFrame :=
  call_returning ["pd"; "read_csv"] [AStr iris_csv; AKw "header" (AInt 1)]
    (fun l => lib_read_csv l iris_csv).

(** Cell 1: read the data set and make its description. *)
Definition describe_dataset : M (DataFrame * Obj) :=
  from_import ["dlhub_sdk"; "models"; "datasets"] [("TabularDataset", None)] ;;
  import_module ["pandas"] (Some "pd") ;;
  import_module ["json"] None ;;
  data <- read_iris ;;
  dataset_info <- call ["TabularDataset"; "create_model"]
                    [AStr iris_csv; AKw "read_kwargs" (ADict [("header", AInt 1)])] ;;
  ret (data, dataset_info).

(** [data.columns[:-1]] and [data.columns[-1:]]. *)
Definition input_columns (data : DataFrame) : list string :=
  Slice.slice None (Some (-1)%Z) (columns data).
Definition label_columns (data : DataFrame) : list string :=
  Slice.slice (Some (-1)%Z) None (columns data).

(** Cell 2: identifiers, domain, columns, inputs and labels, provenance. *)
Definition enrich_dataset (data : DataFrame) (dataset_info : Obj) : M unit :=
  method dataset_info "add_alternate_identifier"
    [AKw "identifier" (AStr "https://archive.ics.uci.edu/ml/datasets/Iris");
     AKw "identifier_type" (AStr "URL")] ;;
  method dataset_info "add_related_identifier"
    [AKw "identifier" (AStr "10.1111/j.1469-1809.1936.tb02137.x");
     AKw "identifier_type" (AStr "DOI");
     AKw "relation_type" (AStr "IsDescribedBy")] ;;
  method dataset_info "set_domains" [strs ["biology"]] ;;
  method dataset_info "annotate_column"
    [AStr "sepal_length"; AKw "description" (AStr "Length of sepal"); AKw "units" (AStr "cm")] ;;
  method dataset_info "annotate_column"
    [AStr "sepal_width"; AKw "description" (AStr "Width of sepal"); AKw "units" (AStr "cm")] ;;
  method dataset_info "annotate_column"
    [AStr "petal_length"; AKw "description" (AStr "Length of petal"); AKw "units" (AStr "cm")] ;;
  method dataset_info "annotate_column"
    [AStr "petal_width"; AKw "description" (AStr "Width of petal"); AKw "units" (AStr "cm")] ;;
  method dataset_info "annotate_column"
    [AStr "species"; AKw "description" (AStr "Species"); AKw "data_type" (AStr "string")] ;;
  method dataset_info "mark_inputs" [strs (input_columns data)] ;;
  method dataset_info "mark_labels" [strs (label_columns data)] ;;
  method dataset_info "set_title" [AStr "Iris Dataset"] ;;
  method dataset_info "set_name" [AStr "iris_dataset"] ;;
  method dataset_info "set_authors" [strs ["Marshall, R.A."]] ;;
  ret tt.

(** Cells 3 and 7: [print(json.dumps(info.to_dict(), indent=2))]. *)
Definition show (info : Obj) : M unit :=
  d <- method info "to_dict" [] ;;
  text <- call ["json"; "dumps"] [ARef d; AKw "indent" (AInt 2)] ;;
  print [ARef text].

(** ['Loaded {} rows with {} columns:'.format(n_rows, n_columns)]. *)
Definition loaded_message (n_rows n_columns : nat) : string :=
  ("Loaded " ++ str n_rows ++ " rows with " ++ str n_columns ++ " columns:")%string.

(** Cell 4: make a model using the Iris dataset. *)
Definition train : M DataFrame :=
  from_import ["sklearn"; "svm"] [("SVC", None)] ;;
  import_module ["pickle"] (Some "pkl") ;;
  import_module ["pandas"] (Some "pd") ;;
  data <- read_iris ;;
  print [AStr (loaded_message (length (rows data)) (length (columns data)));
         strs (columns data)] ;;
  model <- call ["SVC"] [AKw "kernel" (AStr "linear"); AKw "C" (AInt 1);
                         AKw "probability" (ABool true)] ;;
  let X := values_cols None (Some (-1)%Z) data in
  y <- lift (values_col (-1) data) ;;
  method model "fit" [ATable X; strs y] ;;
  print [AStr "Trained a SVC model"] ;;
  with_open model_pkl "wb" (fun fp =>
    call ["pkl"; "dump"] [ARef model; ARef fp]) ;;
  print [AStr "Saved model to disk"] ;;
  ret data.

(** Cell 5: describe the model. *)
Definition describe (data : DataFrame) : M Obj :=
  from_import ["dlhub_sdk"; "models"; "servables"; "sklearn"] [("ScikitLearnModel", None)] ;;
  classes <- lift (column_unique "species" data) ;;
  call ["ScikitLearnModel"; "create_model"]
    [AStr model_pkl;
     AKw "n_input_columns" (AInt (Z.of_nat (length (columns data)) - 1));
     AKw "classes" (strs classes)].

(** Cell 6: name, title and domain. *)
Definition enrich (model_info : Obj) : M unit :=
  method model_info "set_title" [AStr "Example Scikit-Learn Model"] ;;
  method model_info "set_name" [AStr "iris_svm"] ;;
  method model_info "set_domains" [strs ["biology"]] ;;
  ret tt.

(** Cell 8: publish the model to DLHub. *)
Definition publish (model_info : Obj) : M unit :=
  import_module ["dlhub_sdk"] None ;;
  dl <- call ["dlhub_sdk"; "DLHubClient"] [] ;;
  task_id <- method dl "publish_servable" [ARef model_info] ;;
  print [ARef task_id].

(** Cell 9, which is empty. *)
Definition empty_cell : M unit := ret tt.

(** The code cells in the order of the notebook. *)
Definition notebook : M unit :=
  '(data, dataset_info) <- describe_dataset ;;
  enrich_dataset data dataset_info ;;
  show dataset_info ;;
  data <- train ;;
  model_info <- describe data ;;
  enrich model_info ;;
  show model_info ;;
  publish model_info ;;
  empty_cell.

End SklearnNotebook.

(** The tutorial material. *)
Definition notebooks : list (string * M unit) :=
  [("Publishing a Keras model", KerasNotebook.notebook);
   ("Publishing a Scikit-learn model", SklearnNotebook.notebook)].

(** ** Reading a trace *)

Fixpoint path_eqb (p q : list string) : bool :=
  match p, q with
  | [], [] => true
  | a :: p', b :: q' => String.eqb a b && path_eqb p' q'
  | _, _ => false
  end.

Definition obj_eqb (a b : Obj) : bool := (oid a =? oid b) && path_eqb (cls a) (cls b).

(** The callable belongs to the [dlhub_sdk] package. *)
Definition from_sdk (q : list string) : bool := String.eqb (hd "" q) "dlhub_sdk".

(** The SDK operation an event invokes, if it invokes one: a callable of
    the package, or a method or subscript of an object the package made. *)
Definition sdk_operation (e : Event) : option string :=
  match e with
  | Call (Fn q) _ _ => if from_sdk q then Some (last q "") else None
  | Call (Meth o name) _ _ => if from_sdk (cls o) then Some name else None
  | Call (GetItem o) _ _ => if from_sdk (cls o) then Some "__getitem__" else None
  | Call (SetItem o) _ _ => if from_sdk (cls o) then Some "__setitem__" else None
  | _ => None
  end.

(** The operations the interface section of the specification lists. *)
Definition listed_operations : list string :=
  ["create_model"; "set_title"; "set_name"; "set_domains"; "annotate_column";
   "mark_inputs"; "mark_labels"; "to_dict"; "publish_servable"].

(** The operations the cells invoke beyond that list. *)
Definition further_operations : list string :=
  ["add_alternate_identifier"; "add_related_identifier"; "set_authors";
   "DLHubClient"; "__getitem__"; "__setitem__"].

Definition mem (s : string) (l : list string) : bool := existsb (String.eqb s) l.

Definition only_operations (allowed : list string) (t : list Event) : bool :=
  forallb (fun e => match sdk_operation e with
                    | Some op => mem op allowed
                    | None => true
                    end) t.

(** Every dictionary a [to_dict] call returns is at once passed to
    [json.dumps], and the text that returns is printed. *)
Fixpoint dicts_printed (t : list Event) : bool :=
  match t with
  | [] => true
  | Call (Meth _ name) _ d :: t' =>
      (if String.eqb name "to_dict"
       then match t' with
            | Call (Fn q) (ARef d' :: _) text :: Print [ARef text'] :: _ =>
                path_eqb q ["json"; "dumps"] && obj_eqb d' d && obj_eqb text' text
            | _ => false
            end
       else true)
      && dicts_printed t'
  | _ :: t' => dicts_printed t'
  end.

(** [model.fit(...)]: a model is trained. *)
Definition is_fit (e : Event) : bool :=
  match e with
  | Call (Meth _ name) _ _ => String.eqb name "fit"
  | _ => false
  end.

Definition is_evaluate (e : Event) : bool :=
  match e with
  | Call (Meth _ name) _ _ => String.eqb name "evaluate"
  | _ => false
  end.

(** An SDK [create_model] call that returns the descriptor [d]. *)
Definition creates (d : Obj) (e : Event) : bool :=
  match e with
  | Call (Fn q) _ r => from_sdk q && String.eqb (last q "") "create_model" && obj_eqb r d
  | _ => false
  end.

(** [d.name(...)]. *)
Definition calls (name : string) (d : Obj) (e : Event) : bool :=
  match e with
  | Call (Meth r n) _ _ => String.eqb n name && obj_eqb r d
  | _ => false
  end.

(** Any call of a method named [publish_servable]. *)
Definition is_publish (e : Event) : bool :=
  match e with
  | Call (Meth _ name) _ _ => String.eqb name "publish_servable"
  | _ => false
  end.

(** [client.publish_servable(d)] on a [DLHubClient]: the descriptor [d]. *)
Definition published (e : Event) : option Obj :=
  match e with
  | Call (Meth client name) [ARef d] _ =>
      if String.eqb name "publish_servable"
         && path_eqb (cls client) ["dlhub_sdk"; "DLHubClient"]
      then Some d else None
  | _ => None
  end.

(** [client.publish_servable(d)]. *)
Definition publishes (d : Obj) (e : Event) : bool :=
  match published e with
  | Some d' => obj_eqb d' d
  | None => false
  end.

(** The events matching the predicates occur in the trace in this order. *)
Fixpoint in_order (ps : list (Event -> bool)) (t : list Event) : bool :=
  match ps, t with
  | [], _ => true
  | _ :: _, [] => false
  | p :: ps', e :: t' => if p e then in_order ps' t' else in_order ps t'
  end.

(** The stages that come before publishing the descriptor [d]. *)
Definition stages (d : Obj) : list (Event -> bool) :=
  [is_fit; creates d; calls "set_title" d; calls "set_name" d; calls "set_domains" d].

(** Every [publish_servable] call in the trace publishes a descriptor whose
    stages all lie before the call. *)
Definition publish_guarded (t : list Event) : bool :=
  forallb (fun p => match nth_error t p with
                    | Some e => if is_publish e
                                then match published e with
                                     | Some d => in_order (stages d) (firstn p t)
                                     | None => false
                                     end
                                else true
                    | None => true
                    end) (seq 0 (length t)).

(** The object a subscripted value was reached from: [d] for [d[k1][k2]]. *)
Fixpoint root_of (t : list Event) (o : nat) : nat :=
  match t with
  | [] => o
  | Call (GetItem r) _ ret :: t' => if oid ret =? o then root_of t' (oid r) else root_of t' o
  | _ :: t' => root_of t' o
  end.

(** The event adds an input or output description to the descriptor [d]:
    a column annotation, an input or label mark, or an assignment to a
    [description] entry below [d].  [before] holds the earlier events,
    latest first. *)
Definition describes_io (before : list Event) (d : Obj) (e : Event) : bool :=
  match e with
  | Call (Meth r name) _ _ =>
      obj_eqb r d && mem name ["annotate_column"; "mark_inputs"; "mark_labels"]
  | Call (SetItem port) (AStr key :: _) _ =>
      String.eqb key "description" && (root_of before (oid port) =? oid d)
  | _ => false
  end.

Fixpoint any_io (before : list Event) (d : Obj) (t : list Event) : bool :=
  match t with
  | [] => false
  | e :: t' => describes_io before d e || any_io (e :: before) d t'
  end.

(** The descriptor [d] gets input or output descriptions in the trace. *)
Definition io_described (d : Obj) (t : list Event) : bool := any_io [] d t.

(** The four steps of a tutorial, all about one descriptor [d]. *)
Definition tutorial_steps (with_io : bool) (d : Obj) (t : list Event) : bool :=
  existsb is_fit t
  && existsb (creates d) t
  && existsb (calls "set_title" d) t
  && existsb (calls "set_domains" d) t
  && (if with_io then io_described d t else true)
  && existsb (publishes d) t.

(** Local data a step reads or writes. *)
Inductive LocalData :=
| File (path : string)
| Dataset (qual : list string).

Definition touches (e : Event) : option LocalData :=
  match e with
  | Call (Meth _ name) (AStr path :: _) _ =>
      if String.eqb name "save" then Some (File path) else None
  | Call (Fn q) (AStr path :: _) _ =>
      if mem (last q "") ["create_model"; "read_csv"; "open"] then Some (File path) else None
  | Call (Fn q) [] _ =>
      if String.eqb (last q "") "load_data" then Some (Dataset (removelast q)) else None
  | _ => None
  end.

Fixpoint ends_with (suffix s : string) : bool :=
  String.eqb s suffix
  || match s with
     | EmptyString => false
     | String _ s' => ends_with suffix s'
     end.

(** A trained model artifact: an HDF5 file or a pickle file. *)
Definition is_model_artifact (x : LocalData) : bool :=
  match x with
  | File path => ends_with ".hd5" path || ends_with ".pkl" path
  | Dataset _ => false
  end.

Definition local_data_eqb (x y : LocalData) : bool :=
  match x, y with
  | File p, File q => String.eqb p q
  | Dataset p, Dataset q => path_eqb p q
  | _, _ => false
  end.

(** The local data of the two tutorials: the model artifacts and the
    training data. *)
Definition tutorial_data : list LocalData :=
  [File "keras_model.hd5"; File SklearnNotebook.model_pkl;
   File SklearnNotebook.iris_csv; Dataset ["keras"; "datasets"; "mnist"]].

Definition touches_only (ok : LocalData -> bool) (t : list Event) : bool :=
  forallb (fun e => match touches e with Some x => ok x | None => true end) t.

(** The four types of the component section of the specification. *)
Definition sdk_types : list string :=
  ["KerasModel"; "ScikitLearnModel"; "TabularDataset"; "DLHubClient"].

(** The callable, when the event invokes one reached through an import. *)
Definition callable (e : Event) : option (list string) :=
  match e with
  | Call (Fn q) _ _ => Some q
  | _ => None
  end.

Definition mentions_type (q : list string) : bool :=
  existsb (fun c => mem c sdk_types) q.

Fixpoint is_prefix (m q : list string) : bool :=
  match m, q with
  | [], _ => true
  | a :: m', b :: q' => String.eqb a b && is_prefix m' q'
  | _ :: _, [] => false
  end.

(** Every invoked callable that names one of the four types lives in the
    [dlhub_sdk] package and is reached through an earlier import of a
    module of that package.  [imports] holds the modules imported so far. *)
Fixpoint types_imported (imports : list (list string)) (t : list Event) : bool :=
  match t with
  | [] => true
  | Import m _ :: t' => types_imported (m :: imports) t'
  | Call (Fn q) _ _ :: t' =>
      (if mentions_type q
       then from_sdk q && existsb (fun m => from_sdk m && is_prefix m q) imports
       else true)
      && types_imported imports t'
  | _ :: t' => types_imported imports t'
  end.

(** The type is invoked somewhere in the trace. *)
Definition invokes (type : string) (t : list Event) : bool :=
  existsb (fun e => match callable e with Some q => mem type q | None => false end) t.

(** [f(...)] for the callable [q], returning [o]. *)
Definition constructs (q : list string) (o : Obj) (e : Event) : bool :=
  match e with
  | Call (Fn q') _ r => path_eqb q' q && obj_eqb r o
  | _ => false
  end.

(** [m.add(l)]. *)
Definition adds (m l : Obj) (e : Event) : bool :=
  match e with
  | Call (Meth r name) [ARef a] _ => String.eqb name "add" && obj_eqb r m && obj_eqb a l
  | _ => false
  end.

(** [m.save(path)]. *)
Definition saves (m : Obj) (path : string) (e : Event) : bool :=
  match e with
  | Call (Meth r name) [AStr p] _ => String.eqb name "save" && obj_eqb r m && String.eqb p path
  | _ => false
  end.

(** [open(path, 'wb')], returning [fp]. *)
Definition opens (path : string) (fp : Obj) (e : Event) : bool :=
  match e with
  | Call (Fn q) [AStr p; AStr mode] r =>
      path_eqb q ["builtins"; "open"] && String.eqb p path && String.eqb mode "wb"
      && obj_eqb r fp
  | _ => false
  end.

(** [pkl.dump(m, fp)]. *)
Definition dumps (m fp : Obj) (e : Event) : bool :=
  match e with
  | Call (Fn q) [ARef a; ARef b] _ =>
      path_eqb q ["pickle"; "dump"] && obj_eqb a m && obj_eqb b fp
  | _ => false
  end.

(** An SDK [create_model] call on the file [path] that returns [d]. *)
Definition creates_from (path : string) (d : Obj) (e : Event) : bool :=
  creates d e
  && match e with
     | Call _ (AStr p :: _) _ => String.eqb p path
     | _ => false
     end.

(** What [publish_guarded] checks, position by position. *)
Definition guarded (t : list Event) : Prop :=
  forall p e, nth_error t p = Some e -> is_publish e = true ->
              exists d, published e = Some d /\ in_order (stages d) (firstn p t) = true.

Definition in_tutorial_data (x : LocalData) : bool := existsb (local_data_eqb x) tutorial_data.

(** The four checks that hold of every trace of a notebook. *)
Definition checked (t : list Event) : Prop :=
  only_operations (listed_operations ++ further_operations) t = true /\
  publish_guarded t = true /\
  touches_only in_tutorial_data t = true /\
  types_imported [] t = true.

(** ** Runs without faults *)

(** The same world with no step raising. *)
Definition calm (w : World) : World :=
  {| w_fault := fun _ => None; w_libs := w_libs w |}.

Definition prefix {A} (l1 l2 : list A) : Prop := exists k, l2 = l1 ++ k.

(** No step from [lo] up to [hi] raises. *)
Definition no_fault (w : World) (lo hi : nat) : Prop :=
  forall j, lo <= j < hi -> w_fault w j = None.

(** A program without handlers: its steps are appended to the trace, a
    run that ends normally met no fault and is the run of the calm world,
    and a run that does not stops at the first fault with that exception,
    at a step the calm run goes on to take, or stops as the calm run does
    with an exception of its own computation. *)
Record lawful {A} (m : M A) : Prop := {
  law_grow : forall w st, prefix (trace st) (trace (snd (m w st)));
  law_normal : forall w st a st',
    m w st = (Normal a, st') ->
    m (calm w) st = (Normal a, st') /\
    no_fault w (length (trace st)) (length (trace st'));
  law_uncaught : forall w st e st',
    m w st = (Uncaught e, st') ->
    prefix (trace st') (trace (snd (m (calm w) st))) /\
    no_fault w (length (trace st)) (length (trace st')) /\
    match e with
    | Library k name =>
        k = length (trace st') /\ w_fault w k = Some name /\
        k < length (trace (snd (m (calm w) st)))
    | Local _ => m (calm w) st = (Uncaught e, st')
    end
}.

(** [try: body except: handler], which no cell uses. *)
Definition try_except {A} (body : M A) (handler : Exn -> M A) : M A := fun w st =>
  match body w st with
  | (Normal a, st') => (Normal a, st')
  | (Uncaught e, st') => handler e w st'
  end.

(** ** A small world to run the notebooks in *)

Module Sample.

Definition images (n : nat) : ndarray :=
  {| shape := [n; 28; 28]; data := map (fun i => Raw (Z.of_nat i)) (seq 0 (n * 784)) |}.

Definition digits (l : list Z) : ndarray :=
  {| shape := [length l]; data := map Raw l |}.

(** One row of [num_classes] entries per label, 1 at the label. *)
Definition one_hot (y : ndarray) (num_classes : Z) : ndarray :=
  {| shape := [length (data y); Z.to_nat num_classes];
     data := flat_map (fun s => map (fun c => match s with
                                             | Raw z => Raw (if (z =? Z.of_nat c)%Z then 1%Z else 0%Z)
                                             | _ => Raw 0
                                             end)
                                    (seq 0 (Z.to_nat num_classes)))
                      (data y) |}.

Definition iris : DataFrame :=
  {| columns := ["sepal_length"; "sepal_width"; "petal_length"; "petal_width"; "species"];
     rows := [["5.1"; "3.5"; "1.4"; "0.2"; "setosa"];
              ["7.0"; "3.2"; "4.7"; "1.4"; "versicolor"];
              ["6.3"; "3.3"; "6.0"; "2.5"; "virginica"];
              ["4.9"; "3.0"; "1.4"; "0.2"; "setosa"]] |}.

Definition libs : Libs :=
  {| lib_mnist := ((images 3, digits [5; 0; 4]%Z), (images 2, digits [7; 2]%Z));
     lib_image_data_format := "channels_last";
     lib_to_categorical := one_hot;
     lib_read_csv := fun _ => iris |}.

(** No step raises. *)
Definition quiet : World := {| w_fault := fun _ => None; w_libs := libs |}.

(** Step [k] raises [name], no other step does. *)
Definition faulty (k : nat) (name : string) : World :=
  {| w_fault := fun j => if j =? k then Some name else None; w_libs := libs |}.

End Sample.

(** ** The Keras notebook without its training cell

    The notebook says of cell 1: "We have pre-trained a model saved in
    keras_model.hd5, so you can skip the step below."  These are the
    remaining code cells, in order. *)
Definition keras_without_training : M unit :=
  model_info <- KerasNotebook.describe ;;
  KerasNotebook.enrich model_info ;;
  KerasNotebook.describe_io model_info ;;
  KerasNotebook.show model_info ;;
  KerasNotebook.publish model_info.

(** [x.astype('float32')] followed by [x /= 255], on one element. *)
Definition normalised (s : scalar) : scalar := Div (Cast "float32" s) 255.

(** Publishing comes late: in a run that ended normally only the last two
    steps can be [publish_servable] calls, and a run that did not end
    normally in the calm world has none. *)
Definition publish_late (r : Exit unit) (t : list Event) : bool :=
  match r with
  | Normal _ => negb (existsb is_publish (firstn (length t - 2) t))
  | Uncaught _ => negb (existsb is_publish t)
  end.

(** The callable belongs to the [keras] package. *)
Definition from_keras (q : list string) : bool := String.eqb (hd "" q) "keras".

(** The values a call gives for the keyword [name], with the call's
    target and the reference it returned. *)
Fixpoint keyword_values (name : string) (args : list Arg) : list Arg :=
  match args with
  | [] => []
  | AKw k v :: args' =>
      if String.eqb k name then v :: keyword_values name args' else keyword_values name args'
  | _ :: args' => keyword_values name args'
  end.

Definition keyword_uses (name : string) (e : Event) : list (Target * Arg * Obj) :=
  match e with
  | Call target args ret => map (fun v => (target, v, ret)) (keyword_values name args)
  | _ => []
  end.

(** The calls of [mark_inputs] and [mark_labels] in a trace: the method, the
    descriptor it is called on, and the arguments. *)
Definition marking (e : Event) : list (string * Obj * list Arg) :=
  match e with
  | Call (Meth r name) args _ =>
      if mem name ["mark_inputs"; "mark_labels"] then [(name, r, args)] else []
  | _ => []
  end.

Definition markings (t : list Event) : list (string * Obj * list Arg) :=
  flat_map marking t.

(** The package an import or a call of a global function belongs to. *)
Definition package (e : Event) : option string :=
  match e with
  | Import m _ => Some (hd "" m)
  | Call (Fn q) _ _ => Some (hd "" q)
  | _ => None
  end.

Definition uses_package (p : string) (t : list Event) : bool :=
  existsb (fun e => match package e with
                    | Some q => String.eqb q p
                    | None => false
                    end) t.

(** Worlds at the edges: a data file without a [species] column, a data
    file without columns, images that are not 28 by 28. *)
Module Edge.

Definition no_species : DataFrame :=
  {| columns := ["sepal_length"; "sepal_width"; "label"];
     rows := [["5.1"; "3.5"; "setosa"]; ["7.0"; "3.2"; "versicolor"]] |}.

Definition no_columns : DataFrame := {| columns := []; rows := [[]; []] |}.

Definition small_images (n : nat) : ndarray :=
  {| shape := [n; 14; 14]; data := map (fun i => Raw (Z.of_nat i)) (seq 0 (n * 196)) |}.

Definition with_frame (d : DataFrame) : World :=
  {| w_fault := fun _ => None;
     w_libs := {| lib_mnist := lib_mnist Sample.libs;
                  lib_image_data_format := "channels_last";
                  lib_to_categorical := Sample.one_hot;
                  lib_read_csv := fun _ => d |} |}.

Definition with_images (x_train x_test : ndarray) : World :=
  {| w_fault := fun _ => None;
     w_libs := {| lib_mnist := ((x_train, Sample.digits [5; 0; 4]%Z),
                                (x_test, Sample.digits [7; 2]%Z));
                  lib_image_data_format := "channels_first";
                  lib_to_categorical := Sample.one_hot;
                  lib_read_csv := fun _ => Sample.iris |} |}.

(** More training images than [train_size]. *)
Definition many_images : World :=
  {| w_fault := fun _ => None;
     w_libs := {| lib_mnist := ((Sample.images 150, Sample.digits (repeat 7%Z 150)),
                                (Sample.images 2, Sample.digits [7; 2]%Z));
                  lib_image_data_format := "channels_last";
                  lib_to_categorical := Sample.one_hot;
                  lib_read_csv := fun _ => Sample.iris |} |}.

(** A data file in which two columns are called [species]. *)
Definition two_species : DataFrame :=
  {| columns := ["species"; "sepal_length"; "species"];
     rows := [["setosa"; "5.1"; "a"]; ["versicolor"; "7.0"; "b"]] |}.

End Edge.

(** An array with a first axis and 784 elements per entry of it. *)
Definition reshapable (a : ndarray) : Prop :=
  exists n rest, shape a = n :: rest /\ size a = n * 784.

(** A data frame whose rows have one cell per column. *)
Definition rectangular (d : DataFrame) : Prop :=
  forall r, In r (rows d) -> length r = length (columns d).

Definition mem_nat (n : nat) (l : list nat) : bool := existsb (Nat.eqb n) l.

(** What a run has done to its models so far: the models [fit] was called
    on, the files opened for writing, and the files a fitted model was
    stored in, by [model.save(path)] or by [pkl.dump(model, fp)]. *)
Record Stored := {
  fitted : list nat;
  writable : list (nat * string);
  stored : list string
}.

Definition record_step (s : Stored) (e : Event) : Stored :=
  match e with
  | Call (Meth m name) args _ =>
      if String.eqb name "fit"
      then {| fitted := oid m :: fitted s; writable := writable s; stored := stored s |}
      else if String.eqb name "save" && mem_nat (oid m) (fitted s)
      then match args with
           | [AStr path] =>
               {| fitted := fitted s; writable := writable s; stored := path :: stored s |}
           | _ => s
           end
      else s
  | Call (Fn q) [AStr path; AStr mode] fp =>
      if path_eqb q ["builtins"; "open"] && String.eqb mode "wb"
      then {| fitted := fitted s; writable := (oid fp, path) :: writable s;
              stored := stored s |}
      else s
  | Call (Fn q) [ARef m; ARef fp] _ =>
      if path_eqb q ["pickle"; "dump"] && mem_nat (oid m) (fitted s)
      then {| fitted := fitted s; writable := writable s;
              stored := map snd (filter (fun f => fst f =? oid fp) (writable s))
                        ++ stored s |}
      else s
  | _ => s
  end.

(** Every SDK [create_model] call on a model artifact (an HDF5 or pickle
    file) comes after the run stored a fitted model in that file. *)
Fixpoint described_after_stored (s : Stored) (t : list Event) : bool :=
  match t with
  | [] => true
  | e :: t' =>
      match e with
      | Call (Fn q) (AStr path :: _) _ =>
          if from_sdk q && String.eqb (last q "") "create_model"
             && is_model_artifact (File path)
          then mem path (stored s)
          else true
      | _ => true
      end
      && described_after_stored (record_step s e) t'
  end.

Definition nothing_stored : Stored := {| fitted := []; writable := []; stored := [] |}.

(** * Properties *)

(** ** Slices *)

Lemma bounds_all_but_last (n : nat) :
  1 <= n -> Slice.bounds None (Some (-1)%Z) n = (0, n - 1).
Proof.
  intros Hn. unfold Slice.bounds, Slice.adjust.
  change (-1 <? 0)%Z with true. cbv iota.
  f_equal. lia.
Qed.

Lemma bounds_last (n : nat) :
  1 <= n -> Slice.bounds (Some (-1)%Z) None n = (n - 1, n).
Proof.
  intros Hn. unfold Slice.bounds, Slice.adjust.
  change (-1 <? 0)%Z with true. cbv iota.
  f_equal; lia.
Qed.

Lemma slice_all_but_last {A} (l : list A) :
  Slice.slice None (Some (-1)%Z) l = removelast l.
Proof.
  destruct l as [|a l].
  - reflexivity.
  - unfold Slice.slice. rewrite bounds_all_but_last by (simpl; lia).
    rewrite Nat.sub_0_r. simpl skipn.
    rewrite removelast_firstn_len, Nat.sub_1_r. reflexivity.
Qed.

Lemma skipn_all_but_last {A} (l : list A) (d : A) :
  l <> [] -> skipn (length l - 1) l = [last l d].
Proof.
  intros Hl. destruct (exists_last Hl) as [l' [a ->]].
  rewrite last_last, length_app. simpl.
  replace (length l' + 1 - 1) with (length l' + 0) by lia.
  rewrite skipn_app, Nat.add_0_r, skipn_all.
  replace (length l' - length l') with 0 by lia. reflexivity.
Qed.

Lemma slice_last {A} (l : list A) (d : A) :
  l <> [] -> Slice.slice (Some (-1)%Z) None l = [last l d].
Proof.
  intros Hl. unfold Slice.slice.
  assert (1 <= length l) by (destruct l; [congruence | simpl; lia]).
  rewrite bounds_last by assumption.
  rewrite (skipn_all_but_last l d Hl).
  replace (length l - (length l - 1)) with 1 by lia. reflexivity.
Qed.

Lemma last_not_in_removelast {A} (l : list A) (d : A) :
  NoDup l -> ~ In (last l d) (removelast l).
Proof.
  intros Hnd Hin. destruct l as [|a l]; [exact Hin|].
  assert (Hl : a :: l <> []) by congruence.
  destruct (exists_last Hl) as [l' [b E]]. rewrite E in *.
  rewrite last_last, removelast_last in Hin.
  apply NoDup_remove_2 in Hnd. rewrite app_nil_r in Hnd. exact (Hnd Hin).
Qed.

(** ** Arrays *)

Lemma shape0_cons (a : ndarray) (n : nat) (rest : list nat) :
  shape a = n :: rest -> shape0 a = Ok n.
Proof.
  intros E. unfold shape0, Slice.index. rewrite E. simpl length.
  replace (0 <? 0)%Z with false by reflexivity.
  replace ((0 <=? 0)%Z && (0 <? Z.of_nat (S (length rest)))%Z) with true.
  - reflexivity.
  - symmetry. apply andb_true_intro. split; [reflexivity | apply Z.ltb_lt; lia].
Qed.

Lemma shape0_inv (a : ndarray) (n : nat) :
  shape0 a = Ok n -> exists rest, shape a = n :: rest.
Proof.
  unfold shape0, Slice.index. destruct (shape a) as [|m rest]; simpl length.
  - simpl. discriminate.
  - intros H. exists rest.
    replace (0 <? 0)%Z with false in H by reflexivity.
    destruct ((0 <=? 0)%Z && (0 <? Z.of_nat (S (length rest)))%Z); [|discriminate].
    simpl in H. congruence.
Qed.

Lemma reshape_inv (a b : ndarray) (dims : list nat) :
  reshape a dims = Ok b -> shape b = dims /\ data b = data a /\ size a = prod dims.
Proof.
  unfold reshape. destruct (prod dims =? size a) eqn:E; [|discriminate].
  intros H. injection H as <-. apply Nat.eqb_eq in E. simpl. auto.
Qed.

Lemma reshape_total (a : ndarray) (dims : list nat) :
  size a = prod dims -> reshape a dims = Ok {| shape := dims; data := data a |}.
Proof.
  intros E. unfold reshape. rewrite E, Nat.eqb_refl. reflexivity.
Qed.

(** [a[:stop]] keeps the first [min stop n] rows of an array of [n] rows. *)
Lemma take_rows_spec (stop : nat) (a : ndarray) (n : nat) (rest : list nat) :
  shape a = n :: rest ->
  take_rows (Z.of_nat stop) a =
    Ok {| shape := Nat.min stop n :: rest;
          data := firstn (Nat.min stop n * prod rest) (data a) |}.
Proof.
  intros E. unfold take_rows. rewrite E.
  unfold Slice.bounds, Slice.adjust.
  replace (Z.of_nat stop <? 0)%Z with false by (symmetry; apply Z.ltb_ge; lia).
  rewrite <- Nat2Z.inj_min, Nat2Z.id. simpl Z.to_nat.
  rewrite Nat.sub_0_r. reflexivity.
Qed.

(** ** The reshape of the Keras notebook *)

Lemma reshape_images_inv (fmt : string) (x_train x_test x_train' x_test' : ndarray)
    (input_shape : list nat) :
  KerasNotebook.reshape_images fmt x_train x_test = Ok (x_train', x_test', input_shape) ->
  exists n_train n_test,
    shape0 x_train = Ok n_train /\ shape0 x_test = Ok n_test /\
    shape x_train' = n_train :: input_shape /\ shape x_test' = n_test :: input_shape /\
    data x_train' = data x_train /\ data x_test' = data x_test /\
    size x_train = n_train * 784 /\ size x_test = n_test * 784 /\
    input_shape = (if String.eqb fmt "channels_first" then [1; 28; 28] else [28; 28; 1]).
Proof.
  unfold KerasNotebook.reshape_images, KerasNotebook.img_rows, KerasNotebook.img_cols.
  intros H.
  destruct (String.eqb fmt "channels_first");
    destruct (shape0 x_train) as [n_train|] eqn:E1; try discriminate;
    match type of H with context [reshape x_train ?d] =>
      destruct (reshape x_train d) as [a|] eqn:E2; try discriminate end;
    destruct (shape0 x_test) as [n_test|] eqn:E3; try discriminate;
    match type of H with context [reshape x_test ?d] =>
      destruct (reshape x_test d) as [b|] eqn:E4; try discriminate end;
    injection H as <- <- <-;
    apply reshape_inv in E2; destruct E2 as (S2 & D2 & Z2);
    apply reshape_inv in E4; destruct E4 as (S4 & D4 & Z4);
    exists n_train, n_test; unfold prod in Z2, Z4; simpl in Z2, Z4;
    repeat split; auto; lia.
Qed.

(** C9: Whichever branch of the [K.image_data_format()] conditional runs,
    the reshape keeps the number of samples of [x_train] and of [x_test],
    every sample has 28*28*1 = 784 elements, and [input_shape] is the shape
    of one sample of the reshaped training array; and for images of 28 by
    28 pixels the reshape does return. *)
Theorem C9_reshape_keeps_samples (fmt : string) (x_train x_test : ndarray) :
  (forall n_train n_test,
      shape x_train = [n_train; 28; 28] -> wf x_train ->
      shape x_test = [n_test; 28; 28] -> wf x_test ->
      exists r, KerasNotebook.reshape_images fmt x_train x_test = Ok r) /\
  (forall x_train' x_test' input_shape,
      KerasNotebook.reshape_images fmt x_train x_test = Ok (x_train', x_test', input_shape) ->
      shape0 x_train' = shape0 x_train /\
      shape0 x_test' = shape0 x_test /\
      prod (tl (shape x_train')) = 28 * 28 * 1 /\
      prod (tl (shape x_test')) = 28 * 28 * 1 /\
      size x_train' = size x_train /\
      size x_test' = size x_test /\
      (forall n, shape0 x_train' = Ok n -> size x_train' = n * 784) /\
      (forall n, shape0 x_test' = Ok n -> size x_test' = n * 784) /\
      input_shape = tl (shape x_train')).
Proof.
  split.
  - intros n_train n_test S1 W1 S2 W2.
    unfold wf in W1, W2. rewrite S1 in W1. rewrite S2 in W2.
    unfold prod in W1, W2. simpl in W1, W2.
    unfold KerasNotebook.reshape_images, KerasNotebook.img_rows, KerasNotebook.img_cols.
    rewrite (shape0_cons _ _ _ S1), (shape0_cons _ _ _ S2).
    destruct (String.eqb fmt "channels_first");
      rewrite !reshape_total by (unfold prod; simpl; lia); eexists; reflexivity.
  - intros x_train' x_test' input_shape H.
    destruct (reshape_images_inv _ _ _ _ _ _ H)
      as (n_train & n_test & E1 & E2 & S1 & S2 & D1 & D2 & Z1 & Z2 & I).
    rewrite (shape0_cons _ _ _ S1), (shape0_cons _ _ _ S2), S1, S2.
    unfold size in *. rewrite D1, D2. simpl tl.
    repeat split; auto.
    + rewrite I. destruct (String.eqb fmt "channels_first"); reflexivity.
    + rewrite I. destruct (String.eqb fmt "channels_first"); reflexivity.
    + intros n Hn. injection Hn as <-. exact Z1.
    + intros n Hn. injection Hn as <-. exact Z2.
Qed.

Lemma C9_reshape_keeps_samples_witness :
  KerasNotebook.reshape_images "channels_first" (Sample.images 3) (Sample.images 2)
    = Ok ({| shape := [3; 1; 28; 28]; data := data (Sample.images 3) |},
          {| shape := [2; 1; 28; 28]; data := data (Sample.images 2) |},
          [1; 28; 28]) /\
  shape0 {| shape := [3; 1; 28; 28]; data := data (Sample.images 3) |} = shape0 (Sample.images 3) /\
  prod (tl [3; 1; 28; 28]) = 28 * 28 * 1.
Proof.
  assert (E : KerasNotebook.reshape_images "channels_first" (Sample.images 3) (Sample.images 2)
    = Ok ({| shape := [3; 1; 28; 28]; data := data (Sample.images 3) |},
          {| shape := [2; 1; 28; 28]; data := data (Sample.images 2) |},
          [1; 28; 28])) by (vm_compute; reflexivity).
  split; [exact E|].
  destruct (C9_reshape_keeps_samples "channels_first" (Sample.images 3) (Sample.images 2))
    as [_ H].
  destruct (H _ _ _ E) as (H1 & _ & H3 & _).
  split; [exact H1 | exact H3].
Defined.

(** ** Rows of an array and of a data frame *)

Lemma take_rows_inv (stop : nat) (a b : ndarray) :
  take_rows (Z.of_nat stop) a = Ok b ->
  exists n rest,
    shape a = n :: rest /\
    shape b = Nat.min stop n :: rest /\
    data b = firstn (Nat.min stop n * prod rest) (data a).
Proof.
  intros H. destruct (shape a) as [|n rest] eqn:E.
  - unfold take_rows in H. rewrite E in H. discriminate H.
  - rewrite (take_rows_spec stop a n rest E) in H. injection H as <-.
    exists n, rest. auto.
Qed.

Lemma take_rows_wf (stop : nat) (a b : ndarray) :
  wf a -> take_rows (Z.of_nat stop) a = Ok b -> wf b.
Proof.
  intros W H. destruct (take_rows_inv _ _ _ H) as (n & rest & Sa & Sb & Db).
  unfold wf, size in *. rewrite Sb, Db, length_firstn, W, Sa.
  change (prod (n :: rest)) with (n * prod rest).
  change (prod (Nat.min stop n :: rest)) with (Nat.min stop n * prod rest).
  apply Nat.min_l. apply Nat.mul_le_mono_r. apply Nat.le_min_r.
Qed.

(** The prepared images: the first [min 100 n] of the loaded training
    images, each element cast and divided once, and all test images. *)
Lemma prepared_images_normalised (fmt : string) (x_train x_test x1 xt1 x_fit : ndarray)
    (input_shape : list nat) (n : nat) :
  KerasNotebook.reshape_images fmt x_train x_test = Ok (x1, xt1, input_shape) ->
  shape0 x_train = Ok n ->
  take_rows KerasNotebook.train_size (itruediv (astype "float32" x1) 255) = Ok x_fit ->
  shape x_fit = Nat.min 100 n :: input_shape /\
  data x_fit = map normalised (firstn (Nat.min 100 n * 784) (data x_train)) /\
  wf x_fit /\
  data (itruediv (astype "float32" xt1) 255) = map normalised (data x_test) /\
  wf (itruediv (astype "float32" xt1) 255).
Proof.
  intros H En Hf.
  destruct (reshape_images_inv _ _ _ _ _ _ H)
    as (n' & m & E1 & E2 & S1 & S2 & D1 & D2 & Z1 & Z2 & I).
  rewrite En in E1. injection E1 as <-.
  assert (P : prod input_shape = 784)
    by (rewrite I; destruct (String.eqb fmt "channels_first"); reflexivity).
  assert (N : forall a, data (itruediv (astype "float32" a) 255) = map normalised (data a))
    by (intros a; simpl; rewrite map_map; reflexivity).
  assert (W1 : wf (itruediv (astype "float32" x1) 255)).
  { unfold wf, size. rewrite N, length_map, D1. simpl shape. rewrite S1.
    change (prod (n :: input_shape)) with (n * prod input_shape). rewrite P. exact Z1. }
  change KerasNotebook.train_size with (Z.of_nat 100) in Hf.
  destruct (take_rows_inv _ _ _ Hf) as (k & rest & Sa & Sb & Db).
  simpl shape in Sa. rewrite S1 in Sa. injection Sa as <- <-.
  split; [exact Sb|]. split.
  - rewrite Db, N, D1, P. apply firstn_map.
  - split; [exact (take_rows_wf _ _ _ W1 Hf)|]. split.
    + rewrite N, D2. reflexivity.
    + unfold wf, size. rewrite N, length_map, D2. simpl shape. rewrite S2.
      change (prod (m :: input_shape)) with (m * prod input_shape). rewrite P. exact Z2.
Qed.

Lemma prod_first (n : nat) : prod [n; 1; 28; 28] = n * 784.
Proof. unfold prod. simpl. lia. Qed.

Lemma prod_last (n : nat) : prod [n; 28; 28; 1] = n * 784.
Proof. unfold prod. simpl. lia. Qed.

Lemma reshape_images_total (fmt : string) (x_train x_test : ndarray) :
  reshapable x_train -> reshapable x_test ->
  exists r, KerasNotebook.reshape_images fmt x_train x_test = Ok r.
Proof.
  intros (n & r1 & E1 & Z1) (m & r2 & E2 & Z2).
  unfold KerasNotebook.reshape_images, KerasNotebook.img_rows, KerasNotebook.img_cols.
  rewrite (shape0_cons _ _ _ E1), (shape0_cons _ _ _ E2).
  destruct (String.eqb fmt "channels_first");
    rewrite !reshape_total by (rewrite ?prod_first, ?prod_last; assumption);
    eexists; reflexivity.
Qed.

Lemma shape0_raised (a : ndarray) (e : PyErr) : shape0 a = Raised e -> shape a = [].
Proof.
  intros H. destruct (shape a) as [|n rest] eqn:E; [reflexivity|].
  rewrite (shape0_cons _ _ _ E) in H. discriminate H.
Qed.

Lemma take_rows_raised (stop : Z) (a : ndarray) (e : PyErr) :
  take_rows stop a = Raised e -> shape a = [] /\ e = IndexError.
Proof.
  unfold take_rows. destruct (shape a) as [|n rest].
  - intros H. injection H as <-. auto.
  - destruct (Slice.bounds None (Some stop) n). discriminate.
Qed.

Lemma take_rows_no_axis (stop : Z) (a : ndarray) :
  shape a = [] -> take_rows stop a = Raised IndexError.
Proof. intros E. unfold take_rows. rewrite E. reflexivity. Qed.

Lemma values_col_last (d : DataFrame) :
  columns d <> [] ->
  values_col (-1) d = Ok (map (fun r => nth (length (columns d) - 1) r "") (rows d)).
Proof.
  intros H. unfold values_col, Slice.index. rewrite length_seq.
  assert (1 <= length (columns d)) by (destruct (columns d); [congruence | simpl; lia]).
  change (-1 <? 0)%Z with true. cbv iota.
  replace ((0 <=? -1 + Z.of_nat (length (columns d)))%Z
           && (-1 + Z.of_nat (length (columns d)) <? Z.of_nat (length (columns d)))%Z)
    with true
    by (symmetry; apply andb_true_intro; split; [apply Z.leb_le | apply Z.ltb_lt]; lia).
  replace (Z.to_nat (-1 + Z.of_nat (length (columns d)))) with (length (columns d) - 1) by lia.
  rewrite nth_error_seq.
  destruct (Nat.ltb_spec (length (columns d) - 1) (length (columns d))); [|lia].
  reflexivity.
Qed.

Lemma values_col_no_columns (d : DataFrame) :
  columns d = [] -> values_col (-1) d = Raised IndexError.
Proof. intros H. unfold values_col. rewrite H. reflexivity. Qed.

Lemma nth_pred_last {A} (l : list A) (d : A) : nth (length l - 1) l d = last l d.
Proof.
  destruct l as [|a l]; [reflexivity|].
  assert (Hl : a :: l <> []) by congruence.
  destruct (exists_last Hl) as [l' [b ->]].
  rewrite last_last, length_app. simpl.
  replace (length l' + 1 - 1) with (length l') by lia.
  rewrite app_nth2, Nat.sub_diag by lia. reflexivity.
Qed.

(** [data.values[:, :-1]] and [data.values[:, -1]] split every row of a
    rectangular frame into its cells but the last, and its last cell. *)
Lemma values_split_rows (d : DataFrame) :
  columns d <> [] -> rectangular d ->
  exists y,
    values_col (-1) d = Ok y /\
    length y = length (rows d) /\
    length (values_cols None (Some (-1)%Z) d) = length (rows d) /\
    forall i r, nth_error (rows d) i = Some r ->
      exists x_i y_i,
        nth_error (values_cols None (Some (-1)%Z) d) i = Some x_i /\
        nth_error y i = Some y_i /\
        r = x_i ++ [y_i] /\
        length x_i = length (SklearnNotebook.input_columns d).
Proof.
  intros Hc Hr. eexists. split; [exact (values_col_last d Hc)|].
  unfold values_cols. rewrite !length_map. split; [reflexivity|]. split; [reflexivity|].
  intros i r Hi.
  exists (Slice.slice None (Some (-1)%Z) r), (nth (length (columns d) - 1) r "").
  rewrite !nth_error_map, Hi. simpl. split; [reflexivity|]. split; [reflexivity|].
  assert (L : length r = length (columns d)) by (apply Hr; exact (nth_error_In _ _ Hi)).
  assert (Hn : r <> []) by (destruct r; [destruct (columns d); simpl in L; congruence | congruence]).
  rewrite <- L, nth_pred_last, slice_all_but_last. split.
  - apply app_removelast_last. exact Hn.
  - unfold SklearnNotebook.input_columns. rewrite slice_all_but_last.
    destruct (exists_last Hn) as [r' [a ->]]. rewrite removelast_last.
    destruct (exists_last Hc) as [c' [b Ec]]. rewrite Ec, removelast_last.
    rewrite Ec, !length_app in L. simpl in L. lia.
Qed.

Lemma unique_In (l : list string) (x : string) : In x (unique l) <-> In x l.
Proof.
  induction l as [|a l IH]; simpl; [tauto|].
  rewrite filter_In, IH. split.
  - intros [H | [H _]]; auto.
  - intros [H | H]; [auto|].
    destruct (String.eqb_spec a x); [auto | right; auto].
Qed.

Lemma unique_NoDup (l : list string) : NoDup (unique l).
Proof.
  induction l as [|a l IH]; simpl; constructor.
  - rewrite filter_In. intros [_ H]. rewrite String.eqb_refl in H. discriminate H.
  - apply NoDup_filter. exact IH.
Qed.

Lemma index_of_None (name : string) (l : list string) :
  index_of name l = None <-> ~ In name l.
Proof.
  induction l as [|a l IH]; simpl; [tauto|].
  destruct (String.eqb_spec a name) as [E | E].
  - split; [discriminate | intros H; exfalso; auto].
  - destruct (index_of name l) as [k|]; simpl.
    + split; [discriminate|]. intros H.
      assert (N : ~ In name l) by tauto.
      apply IH in N. discriminate N.
    + split; [|reflexivity]. intros _ [H | H]; [congruence|].
      exact (proj1 IH eq_refl H).
Qed.

Lemma label_count_In (name : string) (d : DataFrame) :
  In name (columns d) <-> 1 <= label_count name d.
Proof.
  unfold label_count. induction (columns d) as [|a l IH]; simpl.
  - split; [tauto | lia].
  - destruct (String.eqb_spec name a) as [E | E]; simpl.
    + split; [lia | auto].
    + rewrite <- IH. split; [intros [H | H]; [congruence | exact H] | auto].
Qed.

Lemma column_unique_raised (name : string) (d : DataFrame) (e : PyErr) :
  column_unique name d = Raised e ->
  (~ In name (columns d) /\ e = KeyError name) \/
  (1 < label_count name d /\ e = AttributeError "unique").
Proof.
  unfold column_unique. destruct (index_of name (columns d)) eqn:E.
  - destruct (Nat.ltb_spec 1 (label_count name d)) as [C | C]; [|discriminate].
    intros X. injection X as <-. right. auto.
  - intros H. injection H as <-. left. split; [|reflexivity]. apply index_of_None. exact E.
Qed.

Lemma column_unique_ok (name : string) (d : DataFrame) (classes : list string) :
  column_unique name d = Ok classes ->
  In name (columns d) /\ NoDup classes /\
  exists j, index_of name (columns d) = Some j /\
            forall c, In c classes <-> In c (map (fun r => nth j r "") (rows d)).
Proof.
  unfold column_unique. destruct (index_of name (columns d)) as [j|] eqn:E; [|discriminate].
  destruct (1 <? label_count name d); [discriminate|].
  intros H. injection H as <-. split.
  - destruct (in_dec string_dec name (columns d)) as [I | N]; [exact I|].
    apply index_of_None in N. congruence.
  - split; [apply unique_NoDup|]. exists j. split; [reflexivity|].
    intros c. apply unique_In.
Qed.

Lemma column_unique_once (name : string) (d : DataFrame) :
  (exists classes, column_unique name d = Ok classes) <-> label_count name d = 1.
Proof.
  split.
  - intros [classes H]. pose proof (column_unique_ok _ _ _ H) as [I _].
    apply label_count_In in I. unfold column_unique in H.
    destruct (index_of name (columns d)); [|discriminate].
    destruct (Nat.ltb_spec 1 (label_count name d)) as [C | C]; [discriminate | lia].
  - intros H. unfold column_unique.
    destruct (index_of name (columns d)) as [j|] eqn:E.
    + rewrite H. simpl. eauto.
    + apply index_of_None in E. exfalso. apply E. apply label_count_In. lia.
Qed.

Lemma column_unique_twice (name : string) (d : DataFrame) :
  1 < label_count name d -> column_unique name d = Raised (AttributeError "unique").
Proof.
  intros H. unfold column_unique.
  destruct (index_of name (columns d)) as [j|] eqn:E.
  - destruct (Nat.ltb_spec 1 (label_count name d)) as [C | C]; [reflexivity | lia].
  - apply index_of_None in E. exfalso. apply E. apply label_count_In. lia.
Qed.

Lemma input_columns_length (d : DataFrame) :
  columns d <> [] ->
  (Z.of_nat (length (columns d)) - 1)%Z = Z.of_nat (length (SklearnNotebook.input_columns d)).
Proof.
  intros Hc. unfold SklearnNotebook.input_columns. rewrite slice_all_but_last.
  destruct (exists_last Hc) as [c [b ->]]. rewrite removelast_last, length_app. simpl. lia.
Qed.

Ltac keras_impossible :=
  exfalso;
  match goal with
  | H : KerasNotebook.reshape_images _ _ _ = Ok (?a, ?b, _) |- _ =>
      destruct (reshape_images_inv _ _ _ _ _ _ H)
        as (? & ? & _ & _ & ?S1 & ?S2 & _);
      match goal with
      | X : shape0 (itruediv (astype _ a) _) = Raised _ |- _ =>
          apply shape0_raised in X; simpl in X; congruence
      | X : shape0 (itruediv (astype _ b) _) = Raised _ |- _ =>
          apply shape0_raised in X; simpl in X; congruence
      | X : take_rows _ (itruediv (astype _ a) _) = Raised _ |- _ =>
          apply take_rows_raised in X; simpl in X; destruct X; congruence
      end
  end.

(** ** Programs without handlers *)

Section Prefix.

Context {A : Type}.

Lemma prefix_refl (l : list A) : prefix l l.
Proof. exists []. symmetry. apply app_nil_r. Qed.

Lemma prefix_trans (l1 l2 l3 : list A) : prefix l1 l2 -> prefix l2 l3 -> prefix l1 l3.
Proof. intros [k1 ->] [k2 ->]. exists (k1 ++ k2). symmetry. apply app_assoc. Qed.

Lemma prefix_snoc (l : list A) (x : A) : prefix l (l ++ [x]).
Proof. exists [x]. reflexivity. Qed.

Lemma prefix_length (l1 l2 : list A) : prefix l1 l2 -> length l1 <= length l2.
Proof. intros [k ->]. rewrite length_app. lia. Qed.


Lemma prefix_nth_error (l1 l2 : list A) (i : nat) (x : A) :
  prefix l1 l2 -> nth_error l1 i = Some x -> nth_error l2 i = Some x.
Proof.
  intros [k ->] H. rewrite nth_error_app1; [exact H|].
  apply nth_error_Some. congruence.
Qed.

Lemma prefix_forallb (f : A -> bool) (l1 l2 : list A) :
  prefix l1 l2 -> forallb f l2 = true -> forallb f l1 = true.
Proof. intros [k ->] H. rewrite forallb_app in H. apply andb_prop in H. tauto. Qed.

End Prefix.

Lemma no_fault_empty (w : World) (n : nat) : no_fault w n n.
Proof. intros j Hj. lia. Qed.

Lemma no_fault_join (w : World) (a b c : nat) :
  no_fault w a b -> no_fault w b c -> no_fault w a c.
Proof.
  intros H1 H2 j Hj. destruct (Nat.lt_ge_cases j b); [apply H1 | apply H2]; lia.
Qed.

Section Laws.

Context {A B : Type}.

(** A program that neither steps outside nor looks at the faults. *)
Lemma lawful_quiet (m : M A) :
  (forall w st, trace (snd (m w st)) = trace st) ->
  (forall w st, m (calm w) st = m w st) ->
  (forall w st k name, fst (m w st) <> Uncaught (Library k name)) ->
  lawful m.
Proof.
  intros Ht Hc Hl. split.
  - intros w st. rewrite Ht. apply prefix_refl.
  - intros w st a st' E. rewrite Hc, E. split; [reflexivity|].
    replace (trace st') with (trace (snd (m w st))) by (rewrite E; reflexivity).
    rewrite Ht. apply no_fault_empty.
  - intros w st e st' E. rewrite Hc, E. simpl.
    assert (T : trace st' = trace st) by (rewrite <- (Ht w st), E; reflexivity).
    split; [apply prefix_refl|]. rewrite T.
    split; [apply no_fault_empty|].
    destruct e as [k name|e]; [|reflexivity].
    exfalso. apply (Hl w st k name). rewrite E. reflexivity.
Qed.

Lemma lawful_ret (a : A) : lawful (ret a).
Proof. apply lawful_quiet; intros; simpl; try reflexivity; discriminate. Qed.

Lemma lawful_lift (r : Res A) : lawful (lift r).
Proof.
  apply lawful_quiet; intros; unfold lift; destruct r; simpl;
    try reflexivity; discriminate.
Qed.

Lemma lawful_ask (f : Libs -> A) : lawful (ask f).
Proof. apply lawful_quiet; intros; simpl; try reflexivity; discriminate. Qed.

Lemma lawful_step (made_by : list string) (ev : Obj -> Event) : lawful (step made_by ev).
Proof.
  split.
  - intros w st. unfold step. destruct (w_fault w (length (trace st))); simpl.
    + apply prefix_refl.
    + apply prefix_snoc.
  - intros w st a st'. unfold step. simpl.
    destruct (w_fault w (length (trace st))) eqn:F; [discriminate|].
    intros E. injection E as <- <-. split; [reflexivity|].
    simpl. rewrite length_app. simpl. intros j Hj.
    replace j with (length (trace st)) by lia. exact F.
  - intros w st e st'. unfold step. simpl.
    destruct (w_fault w (length (trace st))) eqn:F; [|discriminate].
    intros E. injection E as <- <-.
    split; [apply prefix_snoc|]. split; [apply no_fault_empty|].
    simpl. rewrite length_app. simpl. repeat split; auto. lia.
Qed.

Lemma lawful_bind (m : M A) (f : A -> M B) :
  lawful m -> (forall a, lawful (f a)) -> lawful (bind m f).
Proof.
  intros Lm Lf. split.
  - intros w st. unfold bind.
    pose proof (law_grow m Lm w st) as G.
    destruct (m w st) as [[a|e] st1]; simpl in G; [|exact G].
    exact (prefix_trans _ _ _ G (law_grow _ (Lf a) w st1)).
  - intros w st b st'. unfold bind.
    pose proof (law_grow m Lm w st) as G.
    destruct (m w st) as [[a|e] st1] eqn:E; [|discriminate].
    intros F. destruct (law_normal m Lm _ _ _ _ E) as [C N].
    destruct (law_normal _ (Lf a) _ _ _ _ F) as [C' N'].
    rewrite C. split; [exact C'|]. exact (no_fault_join _ _ _ _ N N').
  - intros w st e st'. unfold bind.
    destruct (m w st) as [[a|e1] st1] eqn:E.
    + intros F. destruct (law_normal m Lm _ _ _ _ E) as [C N].
      destruct (law_uncaught _ (Lf a) _ _ _ _ F) as (P & N' & X).
      rewrite C. split; [exact P|]. split; [exact (no_fault_join _ _ _ _ N N')|].
      exact X.
    + intros F. injection F as <- <-.
      destruct (law_uncaught m Lm _ _ _ _ E) as (P & N & X).
      assert (G : prefix (trace (snd (m (calm w) st)))
                         (trace (snd (match m (calm w) st with
                                      | (Normal a, st2) => f a (calm w) st2
                                      | (Uncaught e2, st2) => (Uncaught e2, st2)
                                      end)))).
      { destruct (m (calm w) st) as [[a|e2] st2]; simpl.
        - apply (law_grow _ (Lf a)).
        - apply prefix_refl. }
      split; [exact (prefix_trans _ _ _ P G)|]. split; [exact N|].
      destruct e1 as [k name|e1].
      * destruct X as (X1 & X2 & X3). repeat split; auto.
        apply prefix_length in G. lia.
      * rewrite X. reflexivity.
Qed.

End Laws.

Lemma lawful_resolve (path : list string) : lawful (resolve path).
Proof.
  apply lawful_quiet; intros; unfold resolve;
    destruct path as [|head attrs]; simpl; try reflexivity; try discriminate;
    destruct (lookup head (names st)); simpl; try reflexivity; discriminate.
Qed.

Lemma lawful_bind_names (bs : list (string * list string)) : lawful (bind_names bs).
Proof. apply lawful_quiet; intros; simpl; try reflexivity; discriminate. Qed.

Lemma lawful_set_opened (f : list nat -> list nat) : lawful (set_opened f).
Proof. apply lawful_quiet; intros; simpl; try reflexivity; discriminate. Qed.

Lemma lawful_closing {A} (fp : Obj) (m : M A) : lawful m -> lawful (closing fp m).
Proof.
  intros L. split.
  - intros w st. unfold closing. pose proof (law_grow m L w st) as G.
    destruct (m w st) as [r st1]. exact G.
  - intros w st a st'. unfold closing.
    destruct (m w st) as [r st1] eqn:E. intros F. injection F as -> <-.
    destruct (law_normal m L _ _ _ _ E) as [C N]. rewrite C. auto.
  - intros w st e st'. unfold closing.
    destruct (m w st) as [r st1] eqn:E. intros F. injection F as -> <-.
    destruct (law_uncaught m L _ _ _ _ E) as (P & N & X).
    destruct (m (calm w) st) as [r2 st2] eqn:E2. simpl in *.
    split; [exact P|]. split; [exact N|].
    destruct e as [k name|e]; [exact X|]. injection X as -> ->. reflexivity.
Qed.

Ltac lawful_step_tac :=
  first
    [ apply lawful_bind; [|intros ?]
    | apply lawful_step
    | apply lawful_ret
    | apply lawful_lift
    | apply lawful_ask
    | apply lawful_resolve
    | apply lawful_bind_names
    | apply lawful_set_opened
    | apply lawful_closing
    | match goal with
      | |- lawful (match ?x with _ => _ end) => destruct x
      end ].

Ltac lawful_tac := cbv zeta; repeat lawful_step_tac.

Lemma lawful_import_module (m : list string) (alias : option string) :
  lawful (import_module m alias).
Proof. unfold import_module. lawful_tac. Qed.

Lemma lawful_from_import (m : list string) (members : list (string * option string)) :
  lawful (from_import m members).
Proof. unfold from_import. lawful_tac. Qed.

Lemma lawful_call (path : list string) (args : list Arg) : lawful (call path args).
Proof. unfold call. lawful_tac. Qed.

Lemma lawful_call_returning {A} (path : list string) (args : list Arg) (result : Libs -> A) :
  lawful (call_returning path args result).
Proof. unfold call_returning, call. lawful_tac. Qed.

Lemma lawful_ref (path : list string) : lawful (ref path).
Proof. unfold ref. lawful_tac. Qed.

Lemma lawful_method (recv : Obj) (name : string) (args : list Arg) :
  lawful (method recv name args).
Proof. unfold method. lawful_tac. Qed.

Lemma lawful_getitem (recv : Obj) (key : Arg) : lawful (getitem recv key).
Proof. unfold getitem. lawful_tac. Qed.

Lemma lawful_setitem (recv : Obj) (key value : Arg) : lawful (setitem recv key value).
Proof. unfold setitem. lawful_tac. Qed.

Lemma lawful_print (args : list Arg) : lawful (print args).
Proof. unfold print. lawful_tac. Qed.

Lemma lawful_with_open {A} (path mode : string) (body : Obj -> M A) :
  (forall fp, lawful (body fp)) -> lawful (with_open path mode body).
Proof. intros L. unfold with_open, call. lawful_tac. apply L. Qed.

Ltac cell_tac :=
  cbv zeta;
  repeat first
    [ apply lawful_import_module
    | apply lawful_from_import
    | apply lawful_call
    | apply lawful_call_returning
    | apply lawful_ref
    | apply lawful_method
    | apply lawful_getitem
    | apply lawful_setitem
    | apply lawful_print
    | apply lawful_ret
    | apply lawful_lift
    | apply lawful_with_open; intros ?
    | match goal with
      | |- lawful (match ?x with _ => _ end) => destruct x
      end
    | apply lawful_bind; [|intros ?] ].

Lemma lawful_keras : lawful KerasNotebook.notebook.
Proof.
  unfold KerasNotebook.notebook, KerasNotebook.train, KerasNotebook.describe,
    KerasNotebook.enrich, KerasNotebook.describe_io, KerasNotebook.set_description,
    KerasNotebook.show, KerasNotebook.publish.
  cell_tac.
Qed.

Lemma lawful_sklearn : lawful SklearnNotebook.notebook.
Proof.
  unfold SklearnNotebook.notebook, SklearnNotebook.describe_dataset,
    SklearnNotebook.read_iris, SklearnNotebook.enrich_dataset, SklearnNotebook.show,
    SklearnNotebook.train, SklearnNotebook.describe, SklearnNotebook.enrich,
    SklearnNotebook.publish, SklearnNotebook.empty_cell.
  cell_tac.
Qed.

Lemma lawful_notebooks (title : string) (nb : M unit) :
  In (title, nb) notebooks -> lawful nb.
Proof.
  intros [E | [E | []]]; injection E as _ <-; [apply lawful_keras | apply lawful_sklearn].
Qed.

(** Every run is a run of the calm world cut short. *)
Lemma run_prefix {A} (nb : M A) (w : World) :
  lawful nb -> prefix (trace (snd (run nb w))) (trace (snd (run nb (calm w)))).
Proof.
  intros L. unfold run. destruct (nb w init) as [[a|e] st] eqn:E; simpl.
  - destruct (law_normal nb L _ _ _ _ E) as [C _]. rewrite C. apply prefix_refl.
  - destruct (law_uncaught nb L _ _ _ _ E) as [P _]. exact P.
Qed.

Lemma run_normal_calm {A} (nb : M A) (w : World) (a : A) (st : State) :
  lawful nb -> run nb w = (Normal a, st) -> run nb (calm w) = (Normal a, st).
Proof. intros L E. exact (proj1 (law_normal nb L _ _ _ _ E)). Qed.

(** What the calm run does, a run without faults up to there does too. *)
Lemma normal_transfers {A} (nb : M A) (w : World) (a : A) (st : State) :
  lawful nb -> run nb (calm w) = (Normal a, st) ->
  no_fault w 0 (length (trace st)) -> run nb w = (Normal a, st).
Proof.
  intros L C N. unfold run in *.
  destruct (nb w init) as [[a'|e] st'] eqn:E.
  - rewrite (proj1 (law_normal nb L _ _ _ _ E)) in C. exact C.
  - exfalso. destruct (law_uncaught nb L _ _ _ _ E) as (_ & _ & X).
    rewrite C in X. simpl in X.
    destruct e as [k name|e]; [|discriminate X].
    destruct X as (_ & F & K). rewrite (N k) in F; [discriminate F | lia].
Qed.


(** A handler is what lawfulness excludes: a program that catches the
    exception of its first step ends normally in a world where that step
    raises, which no lawful program does. *)
Remark handler_is_not_lawful :
  ~ lawful (try_except (step ["m"] (fun _ => Import ["m"] []))
                       (fun _ => ret {| oid := 0; cls := [] |})).
Proof.
  intros L.
  destruct (law_normal _ L (Sample.faulty 0 "ImportError") init
              {| oid := 0; cls := [] |} init eq_refl) as [C _].
  discriminate C.
Qed.

(** ** Reading the traces of all runs *)

Lemma path_eqb_eq (p q : list string) : path_eqb p q = true -> p = q.
Proof.
  revert q. induction p as [|a p IH]; intros [|b q] H; simpl in H; try discriminate.
  - reflexivity.
  - apply andb_prop in H. destruct H as [H1 H2].
    apply String.eqb_eq in H1. rewrite H1, (IH q H2). reflexivity.
Qed.

Lemma obj_eqb_eq (a b : Obj) : obj_eqb a b = true -> a = b.
Proof.
  unfold obj_eqb. intros H. apply andb_prop in H. destruct H as [H1 H2].
  apply Nat.eqb_eq in H1. apply path_eqb_eq in H2.
  destruct a, b. simpl in *. congruence.
Qed.

Lemma firstn_prefix {A} (l1 l2 : list A) (p : nat) :
  prefix l1 l2 -> p <= length l1 -> firstn p l2 = firstn p l1.
Proof.
  intros [k ->] Hp. rewrite firstn_app.
  replace (p - length l1) with 0 by lia. simpl. apply app_nil_r.
Qed.

Lemma publish_guarded_sound (t : list Event) : publish_guarded t = true -> guarded t.
Proof.
  intros H p e Hp He. unfold publish_guarded in H.
  rewrite forallb_forall in H.
  assert (Hin : In p (seq 0 (length t))).
  { apply in_seq. split; [lia|]. simpl. apply nth_error_Some. congruence. }
  specialize (H p Hin). rewrite Hp, He in H.
  destruct (published e) as [d|]; [|discriminate].
  exists d. auto.
Qed.

Lemma guarded_prefix (t1 t2 : list Event) : prefix t1 t2 -> guarded t2 -> guarded t1.
Proof.
  intros P G p e Hp He.
  destruct (G p e (prefix_nth_error _ _ _ _ P Hp) He) as [d [Hd Ho]].
  exists d. split; [exact Hd|].
  rewrite <- (firstn_prefix t1 t2 p P); [exact Ho|].
  apply Nat.lt_le_incl. apply nth_error_Some. congruence.
Qed.

Lemma types_imported_prefix (t1 t2 : list Event) (imports : list (list string)) :
  prefix t1 t2 -> types_imported imports t2 = true -> types_imported imports t1 = true.
Proof.
  intros [k ->]. revert imports.
  induction t1 as [|e t1 IH]; intros imports H; [reflexivity|].
  destruct e as [m members|target args ret|args]; simpl in *; auto.
  destruct target; auto.
  apply andb_prop in H. destruct H as [H1 H2].
  rewrite H1. simpl. auto.
Qed.

(** The same checks read event by event. *)
Lemma only_operations_sound (allowed : list string) (t : list Event) :
  only_operations allowed t = true ->
  forall e op, In e t -> sdk_operation e = Some op -> In op allowed.
Proof.
  unfold only_operations. rewrite forallb_forall. intros H e op Hin Hop.
  specialize (H e Hin). rewrite Hop in H. unfold mem in H.
  apply existsb_exists in H. destruct H as [x [Hx E]].
  apply String.eqb_eq in E. subst. exact Hx.
Qed.

Lemma touches_only_sound (ok : LocalData -> bool) (t : list Event) :
  touches_only ok t = true ->
  forall e x, In e t -> touches e = Some x -> ok x = true.
Proof.
  unfold touches_only. rewrite forallb_forall. intros H e x Hin Hx.
  specialize (H e Hin). rewrite Hx in H. exact H.
Qed.

Lemma local_data_eqb_eq (x y : LocalData) : local_data_eqb x y = true -> x = y.
Proof.
  destruct x, y; simpl; try discriminate; intros H.
  - apply String.eqb_eq in H. congruence.
  - apply path_eqb_eq in H. congruence.
Qed.

(** ** Running a notebook in a calm world *)

Ltac calm_eval H :=
  cbv -[KerasNotebook.reshape_images take_rows shape0 values_col values_cols column_unique
        str SklearnNotebook.loaded_message SklearnNotebook.input_columns
        SklearnNotebook.label_columns astype itruediv Z.of_nat Z.sub length] in H.

Ltac calm_case H :=
  match type of H with
  | context [match ?x with Ok _ => _ | Raised _ => _ end] => destruct x eqn:?
  | context [match ?x with (_, _) => _ end] => is_var x; destruct x
  end.

Ltac calm_run H := calm_eval H; repeat (calm_case H; calm_eval H).

Lemma keras_calm_checked (libs : Libs) :
  checked (trace (snd (run KerasNotebook.notebook {| w_fault := fun _ => None; w_libs := libs |}))).
Proof.
  destruct libs as [[[x_train y_train] [x_test y_test]] fmt to_categorical read_csv].
  match goal with |- context [run ?nb ?w] => destruct (run nb w) as [r st] eqn:H end.
  calm_run H; injection H as <- <-; vm_compute; auto.
Qed.

Lemma sklearn_calm_checked (libs : Libs) :
  checked (trace (snd (run SklearnNotebook.notebook {| w_fault := fun _ => None; w_libs := libs |}))).
Proof.
  destruct libs as [[[x_train y_train] [x_test y_test]] fmt to_categorical read_csv].
  match goal with |- context [run ?nb ?w] => destruct (run nb w) as [r st] eqn:H end.
  calm_run H; injection H as <- <-; vm_compute; auto.
Qed.

(** They hold of every run, calm or not. *)
Lemma runs_checked (title : string) (nb : M unit) (w : World) :
  In (title, nb) notebooks ->
  let t := trace (snd (run nb w)) in
  only_operations (listed_operations ++ further_operations) t = true /\
  guarded t /\
  touches_only in_tutorial_data t = true /\
  types_imported [] t = true.
Proof.
  intros Hin t.
  assert (P : prefix t (trace (snd (run nb (calm w)))))
    by (apply run_prefix, (lawful_notebooks title), Hin).
  assert (C : checked (trace (snd (run nb (calm w))))).
  { destruct Hin as [E | [E | []]]; injection E as _ <-;
      [apply keras_calm_checked | apply sklearn_calm_checked]. }
  destruct C as (C1 & C2 & C3 & C4).
  split; [exact (prefix_forallb _ _ _ P C1)|].
  split; [exact (guarded_prefix _ _ P (publish_guarded_sound _ C2))|].
  split; [exact (prefix_forallb _ _ _ P C3)|].
  exact (types_imported_prefix _ _ _ P C4).
Qed.

Lemma only_operations_complete (allowed : list string) (t : list Event) :
  (forall e op, In e t -> sdk_operation e = Some op -> In op allowed) ->
  only_operations allowed t = true.
Proof.
  intros H. unfold only_operations. apply forallb_forall. intros e Hin.
  destruct (sdk_operation e) as [op|] eqn:E; [|reflexivity].
  unfold mem. apply existsb_exists. exists op. split.
  - exact (H e op Hin E).
  - apply String.eqb_refl.
Qed.

Lemma touches_only_complete (ok : LocalData -> bool) (t : list Event) :
  (forall e x, In e t -> touches e = Some x -> ok x = true) ->
  touches_only ok t = true.
Proof.
  intros H. unfold touches_only. apply forallb_forall. intros e Hin.
  destruct (touches e) as [x|] eqn:E; [|reflexivity].
  exact (H e x Hin E).
Qed.

Lemma types_imported_from_sdk (imports : list (list string)) (t : list Event) :
  types_imported imports t = true ->
  forall e q, In e t -> callable e = Some q -> mentions_type q = true -> from_sdk q = true.
Proof.
  revert imports. induction t as [|e0 t IH]; intros imports H e q Hin Hq Hm; [destruct Hin|].
  destruct Hin as [-> | Hin].
  - destruct e as [m members|target args ret|args]; simpl in Hq; try discriminate.
    destruct target; try discriminate. injection Hq as ->.
    simpl in H. rewrite Hm in H.
    apply andb_prop in H. destruct H as [H _].
    apply andb_prop in H. tauto.
  - destruct e0 as [m members|target args ret|args]; simpl in H.
    + exact (IH _ H e q Hin Hq Hm).
    + destruct target; try exact (IH _ H e q Hin Hq Hm).
      apply andb_prop in H. destruct H as [_ H]. exact (IH _ H e q Hin Hq Hm).
    + exact (IH _ H e q Hin Hq Hm).
Qed.

(** A run that ended normally, replayed in the calm world and evaluated. *)
Ltac complete_run H w :=
  apply run_normal_calm in H; [|first [apply lawful_keras | apply lawful_sklearn]];
  unfold calm in H;
  let libs := fresh "libs" in
  destruct w as [? libs]; simpl w_libs in *;
  destruct libs as [[[? ?] [? ?]] ? ? ?];
  calm_run H; try discriminate H; injection H as <-.

(** ** C3: the SDK operations the cells invoke *)

(** C3, as the specification states it, fails: the scikit-learn notebook
    calls [add_alternate_identifier] on the data set descriptor, which is
    not one of the nine listed operations. *)
Lemma C3_listed_operations_are_not_all :
  ~ (forall title nb w, In (title, nb) notebooks ->
       forall e op, In e (trace (snd (run nb w))) -> sdk_operation e = Some op ->
                    In op listed_operations).
Proof.
  intros H.
  specialize (H "Publishing a Scikit-learn model" SklearnNotebook.notebook Sample.quiet
                (or_intror (or_introl eq_refl))).
  apply only_operations_complete in H. vm_compute in H. discriminate H.
Qed.

(** C3 (amended): In every run of either notebook, the SDK operations the
    cells invoke are the nine listed ones ([create_model], [set_title],
    [set_name], [set_domains], [annotate_column], [mark_inputs],
    [mark_labels], [to_dict], [publish_servable]) and, beyond them,
    [add_alternate_identifier], [add_related_identifier], [set_authors],
    the [DLHubClient] constructor, and subscripts of the Keras
    descriptor; and in a run that ends normally every dictionary that
    [to_dict] returns is printed as JSON. *)
Theorem C3_sdk_operations (title : string) (nb : M unit) (w : World) :
  In (title, nb) notebooks ->
  (forall e op, In e (trace (snd (run nb w))) -> sdk_operation e = Some op ->
                In op (listed_operations ++ further_operations)) /\
  (forall st, run nb w = (Normal tt, st) -> dicts_printed (trace st) = true).
Proof.
  intros Hin. split.
  - destruct (runs_checked title nb w Hin) as (H & _).
    exact (only_operations_sound _ _ H).
  - intros st E.
    destruct Hin as [T | [T | []]]; injection T as _ <-;
      complete_run E w; vm_compute; reflexivity.
Qed.

Lemma C3_sdk_operations_witness :
  In ("Publishing a Scikit-learn model", SklearnNotebook.notebook) notebooks /\
  In "set_authors" (listed_operations ++ further_operations).
Proof.
  assert (Hin : In ("Publishing a Scikit-learn model", SklearnNotebook.notebook) notebooks)
    by (right; left; reflexivity).
  split; [exact Hin|].
  destruct (C3_sdk_operations _ _ Sample.quiet Hin) as [H _].
  apply (H (nth 17 (trace (snd (run SklearnNotebook.notebook Sample.quiet))) (Print []))).
  - apply nth_In. vm_compute. lia.
  - vm_compute. reflexivity.
Defined.

(** Each operation beyond the list is invoked in a calm run. *)
Lemma further_operations_invoked :
  forallb (fun op =>
             existsb (fun nb =>
                        existsb (fun e => match sdk_operation e with
                                          | Some op' => String.eqb op' op
                                          | None => false
                                          end)
                                (trace (snd (run (snd nb) Sample.quiet))))
                     notebooks)
          further_operations = true.
Proof. vm_compute. reflexivity. Qed.

(** ** C5: the data the notebooks read and write *)

(** C5, as the specification states it, fails: the scikit-learn notebook
    reads [scikit_learn_model/iris.csv], which is neither a trained model
    artifact nor a metadata dictionary. *)
Lemma C5_training_data_is_read :
  ~ (forall title nb w, In (title, nb) notebooks ->
       forall e x, In e (trace (snd (run nb w))) -> touches e = Some x ->
                   is_model_artifact x = true).
Proof.
  intros H.
  specialize (H "Publishing a Scikit-learn model" SklearnNotebook.notebook Sample.quiet
                (or_intror (or_introl eq_refl))).
  apply touches_only_complete in H. vm_compute in H. discriminate H.
Qed.

(** C5 (amended): In every run of either notebook, the local data a step
    reads or writes is a trained model artifact ([keras_model.hd5],
    [scikit_learn_model/model.pkl]) or the training data
    ([scikit_learn_model/iris.csv], the MNIST arrays of
    [keras.datasets.mnist]); beside these the cells handle the metadata
    descriptors only. *)
Theorem C5_local_data (title : string) (nb : M unit) (w : World) :
  In (title, nb) notebooks ->
  forall e x, In e (trace (snd (run nb w))) -> touches e = Some x -> In x tutorial_data.
Proof.
  intros Hin e x He Hx. destruct (runs_checked title nb w Hin) as (_ & _ & H & _).
  pose proof (touches_only_sound _ _ H e x He Hx) as Hd.
  unfold in_tutorial_data in Hd. apply existsb_exists in Hd.
  destruct Hd as [y [Hy E]]. apply local_data_eqb_eq in E. subst. exact Hy.
Qed.

Lemma C5_local_data_witness :
  In ("Publishing a Keras model", KerasNotebook.notebook) notebooks /\
  In (Dataset ["keras"; "datasets"; "mnist"]) tutorial_data.
Proof.
  assert (Hin : In ("Publishing a Keras model", KerasNotebook.notebook) notebooks)
    by (left; reflexivity).
  split; [exact Hin|].
  apply (C5_local_data _ _ Sample.quiet Hin
           (nth 7 (trace (snd (run KerasNotebook.notebook Sample.quiet))) (Print []))).
  - apply nth_In. vm_compute. lia.
  - vm_compute. reflexivity.
Defined.

(** ** C7: the SDK types come from the package *)

(** C7: In every run of either notebook, each invoked callable that names
    [KerasModel], [ScikitLearnModel], [TabularDataset] or [DLHubClient]
    lives in the [dlhub_sdk] package and is reached through an import of a
    module of that package made earlier in the run; the notebooks bind no
    such name themselves.  A run that ends normally invokes [DLHubClient]
    and either [KerasModel] or both [TabularDataset] and
    [ScikitLearnModel]. *)
Theorem C7_types_are_imported (title : string) (nb : M unit) (w : World) :
  In (title, nb) notebooks ->
  types_imported [] (trace (snd (run nb w))) = true /\
  (forall e q, In e (trace (snd (run nb w))) -> callable e = Some q ->
               mentions_type q = true -> from_sdk q = true) /\
  (forall st, run nb w = (Normal tt, st) ->
     invokes "DLHubClient" (trace st) = true /\
     (invokes "KerasModel" (trace st)
      || invokes "TabularDataset" (trace st) && invokes "ScikitLearnModel" (trace st)) = true).
Proof.
  intros Hin. destruct (runs_checked title nb w Hin) as (_ & _ & _ & H).
  split; [exact H|]. split; [exact (types_imported_from_sdk _ _ H)|].
  intros st E.
  destruct Hin as [T | [T | []]]; injection T as _ <-;
    complete_run E w; vm_compute; auto.
Qed.

Lemma C7_types_are_imported_witness :
  In ("Publishing a Keras model", KerasNotebook.notebook) notebooks /\
  types_imported [] (trace (snd (run KerasNotebook.notebook Sample.quiet))) = true /\
  invokes "KerasModel" (trace (snd (run KerasNotebook.notebook Sample.quiet))) = true.
Proof.
  assert (Hin : In ("Publishing a Keras model", KerasNotebook.notebook) notebooks)
    by (left; reflexivity).
  split; [exact Hin|].
  destruct (C7_types_are_imported _ _ Sample.quiet Hin) as (H & _ & _).
  split; [exact H|]. vm_compute. reflexivity.
Defined.

(** ** C2: the order of the pipeline *)

(** C2: In every run of either notebook, whenever [publish_servable] is
    called it is called on a [DLHubClient] with a descriptor [d] such that
    earlier in the run, in this order, a model was trained ([fit]), an SDK
    [create_model] call returned [d], and [set_title], [set_name] and
    [set_domains] were called on [d]; and a run that ends normally goes
    through all these stages and then publishes. *)
Theorem C2_pipeline_order (title : string) (nb : M unit) (w : World) :
  In (title, nb) notebooks ->
  (forall p e, nth_error (trace (snd (run nb w))) p = Some e -> is_publish e = true ->
     exists d, published e = Some d /\
               in_order (stages d) (firstn p (trace (snd (run nb w)))) = true) /\
  (forall st, run nb w = (Normal tt, st) ->
     exists d, in_order (stages d ++ [publishes d]) (trace st) = true).
Proof.
  intros Hin. destruct (runs_checked title nb w Hin) as (_ & H & _).
  split; [exact H|].
  intros st E.
  destruct Hin as [T | [T | []]]; injection T as _ <-;
    complete_run E w;
    match goal with
    | |- context [Call (Meth _ "publish_servable") [ARef ?d] _] => exists d
    end;
    vm_compute; reflexivity.
Qed.

Lemma C2_pipeline_order_witness :
  In ("Publishing a Scikit-learn model", SklearnNotebook.notebook) notebooks /\
  exists d, in_order (stages d ++ [publishes d])
              (trace (snd (run SklearnNotebook.notebook Sample.quiet))) = true.
Proof.
  assert (Hin : In ("Publishing a Scikit-learn model", SklearnNotebook.notebook) notebooks)
    by (right; left; reflexivity).
  split; [exact Hin|].
  destruct (C2_pipeline_order _ _ Sample.quiet Hin) as [_ H].
  apply (H (snd (run SklearnNotebook.notebook Sample.quiet))).
  vm_compute. reflexivity.
Defined.

(** In the scikit-learn notebook a descriptor, that of the data set, is
    created before the model is trained; it is not the one published. *)
Remark sklearn_dataset_descriptor_comes_first :
  exists ds, in_order [creates ds; is_fit]
               (trace (snd (run SklearnNotebook.notebook Sample.quiet))) = true /\
             existsb (publishes ds)
               (trace (snd (run SklearnNotebook.notebook Sample.quiet))) = false.
Proof.
  exists {| oid := 4; cls := ["dlhub_sdk"; "models"; "datasets"; "TabularDataset"; "create_model"] |}.
  vm_compute. auto.
Qed.

(** The cell passes exactly these columns to [mark_inputs] and
    [mark_labels] of the data set descriptor. *)
Lemma marked_columns_in_trace (w : World) (st : State) :
  run SklearnNotebook.notebook w = (Normal tt, st) ->
  exists dataset_info r_inputs r_labels,
    In (Call (Meth dataset_info "mark_inputs")
          [strs (SklearnNotebook.input_columns
                   (lib_read_csv (w_libs w) SklearnNotebook.iris_csv))] r_inputs) (trace st) /\
    In (Call (Meth dataset_info "mark_labels")
          [strs (SklearnNotebook.label_columns
                   (lib_read_csv (w_libs w) SklearnNotebook.iris_csv))] r_labels) (trace st).
Proof.
  intros E. complete_run E w. cbn [trace lib_read_csv].
  do 3 eexists. split; repeat (first [left; reflexivity | right]).
Qed.

(** ** How the calm runs end *)

Ltac outcome_done H :=
  injection H as <- <-; eexists; split; [reflexivity | vm_compute; reflexivity].

(** The calm run of the Keras notebook, by what its own computations do:
    [reshape] after nine steps, the row slices of the fit call after 33. *)
Lemma keras_calm_outcome (libs : Libs) (x0 y0 xt0 yt0 : ndarray) :
  lib_mnist libs = ((x0, y0), (xt0, yt0)) ->
  (forall e,
      KerasNotebook.reshape_images (lib_image_data_format libs) x0 xt0 = Raised e ->
      exists st,
        run KerasNotebook.notebook {| w_fault := fun _ => None; w_libs := libs |}
          = (Uncaught (Local e), st) /\
        length (trace st) = 9) /\
  (forall r,
      KerasNotebook.reshape_images (lib_image_data_format libs) x0 xt0 = Ok r ->
      shape (lib_to_categorical libs y0 KerasNotebook.num_classes) = [] ->
      exists st,
        run KerasNotebook.notebook {| w_fault := fun _ => None; w_libs := libs |}
          = (Uncaught (Local IndexError), st) /\
        length (trace st) = 33) /\
  (forall r,
      KerasNotebook.reshape_images (lib_image_data_format libs) x0 xt0 = Ok r ->
      shape (lib_to_categorical libs y0 KerasNotebook.num_classes) <> [] ->
      exists st,
        run KerasNotebook.notebook {| w_fault := fun _ => None; w_libs := libs |}
          = (Normal tt, st) /\
        length (trace st) = 64).
Proof.
  intros L. destruct libs as [[[a b] [c d]] fmt to_categorical read_csv].
  simpl in L. injection L as -> -> -> ->.
  cbn [lib_image_data_format lib_to_categorical]. unfold KerasNotebook.num_classes.
  destruct (run KerasNotebook.notebook _) as [r0 st0] eqn:H.
  split; [|split].
  - intros e He. calm_run H; try congruence.
    injection He as <-. outcome_done H.
  - intros [[x1 xt1] s] Hr Hy.
    pose proof (take_rows_no_axis 100 _ Hy) as Ty.
    calm_run H; try congruence; try keras_impossible.
    injection Ty as ->. outcome_done H.
  - intros [[x1 xt1] s] Hr Hy.
    calm_run H; try congruence; try keras_impossible.
    + outcome_done H.
    + exfalso.
      match goal with X : take_rows _ (to_categorical y0 _) = Raised _ |- _ =>
        apply take_rows_raised in X; destruct X as [X _]; exact (Hy X) end.
Qed.


(** In a normal run of the Keras notebook [fit] and [evaluate] are each
    called once, with these arguments. *)
Lemma keras_fit_and_evaluate (w : World) (st : State) (x0 y0 xt0 yt0 : ndarray) :
  lib_mnist (w_libs w) = ((x0, y0), (xt0, yt0)) ->
  run KerasNotebook.notebook w = (Normal tt, st) ->
  exists x1 xt1 input_shape model x_fit y_fit r_fit r_eval,
    KerasNotebook.reshape_images (lib_image_data_format (w_libs w)) x0 xt0
      = Ok (x1, xt1, input_shape) /\
    take_rows KerasNotebook.train_size (itruediv (astype "float32" x1) 255) = Ok x_fit /\
    take_rows KerasNotebook.train_size
      (lib_to_categorical (w_libs w) y0 KerasNotebook.num_classes) = Ok y_fit /\
    filter is_fit (trace st)
      = [Call (Meth model "fit")
           [AArr x_fit; AArr y_fit;
            AKw "batch_size" (AInt 128); AKw "epochs" (AInt 4); AKw "verbose" (AInt 1);
            AKw "validation_data"
              (ATuple [AArr (itruediv (astype "float32" xt1) 255);
                       AArr (lib_to_categorical (w_libs w) yt0 KerasNotebook.num_classes)])]
           r_fit] /\
    filter is_evaluate (trace st)
      = [Call (Meth model "evaluate")
           [AArr (itruediv (astype "float32" xt1) 255);
            AArr (lib_to_categorical (w_libs w) yt0 KerasNotebook.num_classes);
            AKw "verbose" (AInt 0)]
           r_eval].
Proof.
  intros L E.
  apply run_normal_calm in E; [|apply lawful_keras]. unfold calm in E.
  destruct w as [fault [[[a b] [c d]] fmt to_categorical read_csv]].
  simpl in L. injection L as -> -> -> ->. simpl w_libs in *.
  simpl lib_image_data_format. simpl lib_to_categorical.
  unfold KerasNotebook.train_size, KerasNotebook.num_classes.
  calm_run E; try discriminate E. injection E as <-.
  match goal with
  | H : KerasNotebook.reshape_images _ _ _ = Ok (?x1, ?xt1, ?ish),
    Hx : take_rows 100 (itruediv (astype _ ?x1) _) = Ok ?xf,
    Hy : take_rows 100 (to_categorical y0 _) = Ok ?yf |- _ =>
      exists x1, xt1, ish; eexists; exists xf, yf; do 2 eexists;
      split; [reflexivity|]; split; [exact Hx|];
      split; [reflexivity|]; split; reflexivity
  end.
Qed.

(** In a normal run of the scikit-learn notebook [fit] is called once, on
    the cells before the last column and on the last column. *)
Lemma sklearn_fit (w : World) (st : State) :
  run SklearnNotebook.notebook w = (Normal tt, st) ->
  exists model y r,
    values_col (-1) (lib_read_csv (w_libs w) SklearnNotebook.iris_csv) = Ok y /\
    existsb (constructs ["sklearn"; "svm"; "SVC"] model) (trace st) = true /\
    filter is_fit (trace st)
      = [Call (Meth model "fit")
           [ATable (values_cols None (Some (-1)%Z)
                      (lib_read_csv (w_libs w) SklearnNotebook.iris_csv));
            strs y] r].
Proof.
  intros E.
  apply run_normal_calm in E; [|apply lawful_sklearn]. unfold calm in E.
  destruct w as [fault [[[a b] [c d]] fmt to_categorical read_csv]].
  cbn [w_libs lib_read_csv] in *. unfold SklearnNotebook.iris_csv.
  calm_run E; try discriminate E. injection E as <-.
  match goal with
  | V : values_col _ _ = Ok ?y |- _ =>
      eexists; exists y; eexists; split; [reflexivity|]
  end.
  split; [|reflexivity]. reflexivity.
Qed.

(** ** C1: publishing is the last step *)

(** C1: In a run of either notebook that ends normally, the last two
    steps are one call of [publish_servable] on a [DLHubClient], with a
    descriptor that an SDK [create_model] call returned earlier in the run,
    and the printing of the value that call returned; no earlier step
    calls [publish_servable], and nothing follows the print. *)
Theorem C1_publish_is_last (title : string) (nb : M unit) (w : World) (st : State) :
  In (title, nb) notebooks ->
  run nb w = (Normal tt, st) ->
  exists before client d task,
    trace st = before ++ [Call (Meth client "publish_servable") [ARef d] task;
                          Print [ARef task]] /\
    cls client = ["dlhub_sdk"; "DLHubClient"] /\
    existsb (creates d) before = true /\
    existsb is_publish before = false.
Proof.
  intros Hin E.
  exists (firstn (length (trace st) - 2) (trace st)).
  destruct Hin as [T | [T | []]]; injection T as _ <-;
    complete_run E w;
    do 3 eexists; (split; [reflexivity|]); vm_compute; auto.
Qed.

Lemma C1_publish_is_last_witness :
  In ("Publishing a Keras model", KerasNotebook.notebook) notebooks /\
  run KerasNotebook.notebook Sample.quiet
    = (Normal tt, snd (run KerasNotebook.notebook Sample.quiet)) /\
  exists before client d task,
    trace (snd (run KerasNotebook.notebook Sample.quiet))
    = before ++ [Call (Meth client "publish_servable") [ARef d] task; Print [ARef task]] /\
    cls client = ["dlhub_sdk"; "DLHubClient"] /\
    existsb (creates d) before = true /\
    existsb is_publish before = false.
Proof.
  assert (Hin : In ("Publishing a Keras model", KerasNotebook.notebook) notebooks)
    by (left; reflexivity).
  assert (E : run KerasNotebook.notebook Sample.quiet
              = (Normal tt, snd (run KerasNotebook.notebook Sample.quiet)))
    by (vm_compute; reflexivity).
  split; [exact Hin|]. split; [exact E|].
  exact (C1_publish_is_last _ _ _ _ Hin E).
Defined.

(** ** C4: what the two tutorials do *)

(** C4, as the specification states it, fails: in the scikit-learn notebook
    no single descriptor is created, given a title and domains, given
    input or output descriptions, and published.  The published descriptor
    gets no such description; the data set descriptor gets them and is not
    published. *)
Lemma C4_sklearn_model_has_no_io_description :
  ~ (forall title nb w st, In (title, nb) notebooks -> run nb w = (Normal tt, st) ->
       exists d, tutorial_steps true d (trace st) = true).
Proof.
  intros H.
  assert (E : run SklearnNotebook.notebook Sample.quiet
              = (Normal tt, snd (run SklearnNotebook.notebook Sample.quiet)))
    by (vm_compute; reflexivity).
  destruct (H "Publishing a Scikit-learn model" SklearnNotebook.notebook Sample.quiet _
              (or_intror (or_introl eq_refl)) E) as [d Hd].
  clear E H.
  eassert (T : trace (snd (run SklearnNotebook.notebook Sample.quiet)) = _)
    by (vm_compute; reflexivity).
  rewrite T in Hd. clear T.
  unfold tutorial_steps in Hd.
  apply andb_prop in Hd. destruct Hd as [Hd Hp].
  apply andb_prop in Hd. destruct Hd as [_ Hio].
  apply existsb_exists in Hp. destruct Hp as [e [He Hp]].
  repeat (destruct He as [<- | He]; [try discriminate Hp|]); [|destruct He].
  apply obj_eqb_eq in Hp. subst d.
  discriminate Hio.
Qed.

(** C4 (amended): There are two notebooks, one for each library.  A
    normal run of the Keras one uses [keras] and nothing of [sklearn],
    [pandas] or [pickle]: it builds a [Sequential] model with a [Conv2D]
    layer, fits it, saves it to [keras_model.hd5], creates a descriptor
    from that file, gives it a title, a name and domains, in this order,
    and input and output descriptions, and publishes it.  A normal run of
    the scikit-learn one uses [sklearn] and nothing of [keras]: it builds
    an [SVC], fits it, pickles it to [scikit_learn_model/model.pkl],
    creates a descriptor from that file, gives it a title, a name and
    domains, in this order, and publishes it; the input and output
    descriptions go to the separate data set descriptor, which has a
    title, a name and domains as well and is not published. *)
Theorem C4_two_tutorials :
  map snd notebooks = [KerasNotebook.notebook; SklearnNotebook.notebook] /\
  (forall w st, run KerasNotebook.notebook w = (Normal tt, st) ->
     exists model layer d,
       in_order [constructs ["keras"; "models"; "Sequential"] model;
                 constructs ["keras"; "layers"; "Conv2D"] layer;
                 adds model layer;
                 calls "fit" model;
                 saves model "keras_model.hd5";
                 creates_from "keras_model.hd5" d;
                 calls "set_title" d;
                 calls "set_name" d;
                 calls "set_domains" d;
                 publishes d] (trace st) = true /\
       tutorial_steps true d (trace st) = true /\
       uses_package "keras" (trace st) = true /\
       uses_package "sklearn" (trace st) = false /\
       uses_package "pandas" (trace st) = false /\
       uses_package "pickle" (trace st) = false) /\
  (forall w st, run SklearnNotebook.notebook w = (Normal tt, st) ->
     exists model fp d dataset_info,
       in_order [constructs ["sklearn"; "svm"; "SVC"] model;
                 calls "fit" model;
                 opens SklearnNotebook.model_pkl fp;
                 dumps model fp;
                 creates_from SklearnNotebook.model_pkl d;
                 calls "set_title" d;
                 calls "set_name" d;
                 calls "set_domains" d;
                 publishes d] (trace st) = true /\
       tutorial_steps false d (trace st) = true /\
       io_described d (trace st) = false /\
       existsb (creates_from SklearnNotebook.iris_csv dataset_info) (trace st) = true /\
       existsb (calls "set_title" dataset_info) (trace st) = true /\
       existsb (calls "set_name" dataset_info) (trace st) = true /\
       existsb (calls "set_domains" dataset_info) (trace st) = true /\
       io_described dataset_info (trace st) = true /\
       existsb (publishes dataset_info) (trace st) = false /\
       uses_package "sklearn" (trace st) = true /\
       uses_package "keras" (trace st) = false).
Proof.
  split; [reflexivity|]. split.
  - intros w st E. complete_run E w.
    match goal with
    | |- context [Call (Fn ["keras"; "models"; "Sequential"]) _ ?m] => exists m
    end.
    match goal with
    | |- context [Call (Fn ["keras"; "layers"; "Conv2D"]) _ ?l] => exists l
    end.
    match goal with
    | |- context [Call (Meth _ "publish_servable") [ARef ?d] _] => exists d
    end.
    vm_compute. repeat split; reflexivity.
  - intros w st E. complete_run E w.
    match goal with
    | |- context [Call (Fn ["sklearn"; "svm"; "SVC"]) _ ?m] => exists m
    end.
    match goal with
    | |- context [Call (Fn ["builtins"; "open"]) _ ?fp] => exists fp
    end.
    match goal with
    | |- context [Call (Meth _ "publish_servable") [ARef ?d] _] => exists d
    end.
    match goal with
    | |- context [Call (Meth ?ds "mark_inputs") _ _] => exists ds
    end.
    vm_compute. repeat split; reflexivity.
Qed.

Lemma C4_two_tutorials_witness :
  run SklearnNotebook.notebook Sample.quiet
    = (Normal tt, snd (run SklearnNotebook.notebook Sample.quiet)) /\
  exists model fp d dataset_info,
    in_order [constructs ["sklearn"; "svm"; "SVC"] model;
              calls "fit" model;
              opens SklearnNotebook.model_pkl fp;
              dumps model fp;
              creates_from SklearnNotebook.model_pkl d;
              calls "set_title" d;
              calls "set_name" d;
              calls "set_domains" d;
              publishes d] (trace (snd (run SklearnNotebook.notebook Sample.quiet))) = true /\
    io_described d (trace (snd (run SklearnNotebook.notebook Sample.quiet))) = false /\
    io_described dataset_info (trace (snd (run SklearnNotebook.notebook Sample.quiet))) = true /\
    uses_package "keras" (trace (snd (run SklearnNotebook.notebook Sample.quiet))) = false.
Proof.
  assert (E : run SklearnNotebook.notebook Sample.quiet
              = (Normal tt, snd (run SklearnNotebook.notebook Sample.quiet)))
    by (vm_compute; reflexivity).
  split; [exact E|].
  destruct C4_two_tutorials as (_ & _ & H).
  destruct (H _ _ E) as (model & fp & d & ds & H1 & _ & H3 & _ & _ & _ & _ & H7 & _ & _ & H9).
  exists model, fp, d, ds. auto.
Defined.

(** ** C10: what the model is fitted and evaluated on *)

(** C10: The Keras notebook fits the model on [x_train[:train_size]] and
    [y_train[:train_size]] with [train_size = 100].  If the loaded image
    arrays can be reshaped, the label arrays have a first axis and no
    library call raises, the run ends normally.  In every run that ends
    normally the model is fitted once, on the first [min 100 n] of the [n]
    prepared training images and on as many rows of the training labels:
    with more than 100 images loaded, exactly 100 are used and the rest
    is cut off.  The model is evaluated once, on the whole prepared test
    arrays, which hold every sample that was loaded. *)
Theorem C10_fit_on_first_100 (w : World) (x0 y0 xt0 yt0 : ndarray) (n : nat) :
  lib_mnist (w_libs w) = ((x0, y0), (xt0, yt0)) ->
  shape0 x0 = Ok n ->
  (reshapable x0 -> reshapable xt0 ->
   shape (lib_to_categorical (w_libs w) y0 KerasNotebook.num_classes) <> [] ->
   no_fault w 0 64 ->
   exists st, run KerasNotebook.notebook w = (Normal tt, st)) /\
  (forall st,
   run KerasNotebook.notebook w = (Normal tt, st) ->
   exists x1 xt1 input_shape model x_fit y_fit r_fit r_eval,
    KerasNotebook.reshape_images (lib_image_data_format (w_libs w)) x0 xt0
      = Ok (x1, xt1, input_shape) /\
    take_rows KerasNotebook.train_size (itruediv (astype "float32" x1) 255) = Ok x_fit /\
    take_rows KerasNotebook.train_size
      (lib_to_categorical (w_libs w) y0 KerasNotebook.num_classes) = Ok y_fit /\
    filter is_fit (trace st)
      = [Call (Meth model "fit")
           [AArr x_fit; AArr y_fit;
            AKw "batch_size" (AInt 128); AKw "epochs" (AInt 4); AKw "verbose" (AInt 1);
            AKw "validation_data"
              (ATuple [AArr (itruediv (astype "float32" xt1) 255);
                       AArr (lib_to_categorical (w_libs w) yt0 KerasNotebook.num_classes)])]
           r_fit] /\
    filter is_evaluate (trace st)
      = [Call (Meth model "evaluate")
           [AArr (itruediv (astype "float32" xt1) 255);
            AArr (lib_to_categorical (w_libs w) yt0 KerasNotebook.num_classes);
            AKw "verbose" (AInt 0)]
           r_eval] /\
    KerasNotebook.train_size = 100%Z /\
    shape x_fit = Nat.min 100 n :: input_shape /\
    data x_fit = firstn (Nat.min 100 n * 784)
                   (data (itruediv (astype "float32" x1) 255)) /\
    size x_fit = Nat.min 100 n * 784 /\
    size x0 = n * 784 /\
    (100 < n -> shape0 x_fit = Ok 100 /\ size x_fit = 100 * 784 /\ size x_fit < size x0) /\
    (n <= 100 -> data x_fit = data (itruediv (astype "float32" x1) 255)) /\
    (exists m rest,
        shape (lib_to_categorical (w_libs w) y0 KerasNotebook.num_classes) = m :: rest /\
        shape y_fit = Nat.min 100 m :: rest /\
        data y_fit = firstn (Nat.min 100 m * prod rest)
                       (data (lib_to_categorical (w_libs w) y0 KerasNotebook.num_classes))) /\
    shape0 (itruediv (astype "float32" xt1) 255) = shape0 xt0 /\
    size (itruediv (astype "float32" xt1) 255) = size xt0).
Proof.
  intros L En. split.
  - intros R1 R2 Hy N.
    destruct (reshape_images_total (lib_image_data_format (w_libs w)) x0 xt0 R1 R2) as [r Hr].
    destruct (keras_calm_outcome (w_libs w) x0 y0 xt0 yt0 L) as (_ & _ & K).
    destruct (K r Hr Hy) as (st & R & Len).
    exists st. apply (normal_transfers _ w tt st lawful_keras R). rewrite Len. exact N.
  - intros st E.
    destruct (keras_fit_and_evaluate w st x0 y0 xt0 yt0 L E)
      as (x1 & xt1 & ish & model & x_fit & y_fit & r_fit & r_eval & H & Hx & Hy & Hf & He).
    exists x1, xt1, ish, model, x_fit, y_fit, r_fit, r_eval.
    do 5 (split; [assumption|]). split; [reflexivity|].
    destruct (reshape_images_inv _ _ _ _ _ _ H)
      as (n_train & n_test & E1 & E2 & S1 & S2 & D1 & D2 & Z1 & Z2 & I).
    rewrite En in E1. injection E1 as <-.
    change KerasNotebook.train_size with (Z.of_nat 100) in Hx, Hy.
    destruct (take_rows_inv 100 _ _ Hx) as (nx & rest & Sa & Sb & Db).
    destruct (take_rows_inv 100 _ _ Hy) as (ny & resty & Sya & Syb & Dyb).
    assert (P : prod ish = 784)
      by (rewrite I; destruct (String.eqb (lib_image_data_format (w_libs w)) "channels_first");
          reflexivity).
    simpl shape in Sa. rewrite S1 in Sa. injection Sa as <- <-.
    rewrite P in Db.
    assert (Ld : length (data (itruediv (astype "float32" x1) 255)) = n * 784)
      by (simpl data; rewrite !length_map, D1; exact Z1).
    assert (Sz : size x_fit = Nat.min 100 n * 784).
    { unfold size. rewrite Db, length_firstn, Ld.
      apply Nat.min_l. apply Nat.mul_le_mono_r. apply Nat.le_min_r. }
    split; [exact Sb|]. split; [exact Db|]. split; [exact Sz|]. split; [exact Z1|].
    split; [|split; [|split; [|split]]].
    + intros Hn. rewrite (shape0_cons _ _ _ Sb), Sz, Z1.
      rewrite (Nat.min_l 100 n) by lia. split; [reflexivity|]. split; [reflexivity|].
      apply Nat.mul_lt_mono_pos_r; lia.
    + intros Hn. rewrite Db. apply firstn_all2. rewrite Ld.
      rewrite (Nat.min_r 100 n) by lia. lia.
    + exists ny, resty. auto.
    + unfold shape0. simpl shape.
      match goal with |- Slice.index 0 (shape ?x) = _ => fold (shape0 x) end.
      rewrite (shape0_cons _ _ _ S2). symmetry. exact E2.
    + unfold size. simpl data. rewrite !length_map, D2. reflexivity.
Qed.

Lemma C10_fit_on_first_100_witness :
  lib_mnist (w_libs Edge.many_images)
    = ((Sample.images 150, Sample.digits (repeat 7%Z 150)),
       (Sample.images 2, Sample.digits [7; 2]%Z)) /\
  shape0 (Sample.images 150) = Ok 150 /\
  reshapable (Sample.images 150) /\
  reshapable (Sample.images 2) /\
  shape (lib_to_categorical (w_libs Edge.many_images)
           (Sample.digits (repeat 7%Z 150)) KerasNotebook.num_classes) <> [] /\
  no_fault Edge.many_images 0 64 /\
  exists st model x_fit y_fit r_fit validation_data,
    run KerasNotebook.notebook Edge.many_images = (Normal tt, st) /\
    filter is_fit (trace st)
      = [Call (Meth model "fit")
           [AArr x_fit; AArr y_fit;
            AKw "batch_size" (AInt 128); AKw "epochs" (AInt 4); AKw "verbose" (AInt 1);
            AKw "validation_data" validation_data]
           r_fit] /\
    shape0 x_fit = Ok 100 /\
    size x_fit = 100 * 784 /\
    size (Sample.images 150) = 150 * 784.
Proof.
  assert (L : lib_mnist (w_libs Edge.many_images)
              = ((Sample.images 150, Sample.digits (repeat 7%Z 150)),
                 (Sample.images 2, Sample.digits [7; 2]%Z))) by reflexivity.
  assert (En : shape0 (Sample.images 150) = Ok 150) by reflexivity.
  assert (R : forall k, reshapable (Sample.images k)).
  { intros k. exists k, [28; 28]. split; [reflexivity|].
    unfold size, Sample.images. cbn [data]. rewrite length_map, length_seq. lia. }
  assert (Hy : shape (lib_to_categorical (w_libs Edge.many_images)
                        (Sample.digits (repeat 7%Z 150)) KerasNotebook.num_classes) <> [])
    by discriminate.
  assert (N : no_fault Edge.many_images 0 64) by (intros j Hj; reflexivity).
  split; [exact L|]. split; [exact En|]. split; [exact (R 150)|]. split; [exact (R 2)|].
  split; [exact Hy|]. split; [exact N|].
  destruct (C10_fit_on_first_100 Edge.many_images _ _ _ _ 150 L En) as [Tot Fit].
  destruct (Tot (R 150) (R 2) Hy N) as [st E].
  destruct (Fit st E)
    as (x1 & xt1 & ish & model & x_fit & y_fit & r_fit & r_eval
        & _ & _ & _ & H4 & _ & _ & _ & _ & _ & Hz & Hc & _).
  destruct Hc as (C1 & C2 & _); [lia|].
  exists st, model, x_fit, y_fit, r_fit. eexists.
  split; [exact E|]. split; [exact H4|]. split; [exact C1|]. split; [exact C2 | exact Hz].
Defined.

(** ** C6: exceptions are not handled *)



(** The pickle file is closed although [pkl.dump] raised. *)
Example file_closed_after_failed_dump :
  opened (snd (run SklearnNotebook.notebook (Sample.faulty 30 "PicklingError"))) = [] /\
  opened (snd (closing {| oid := 29; cls := ["builtins"; "open"] |}
                 (ret tt) Sample.quiet
                 {| trace := []; names := []; opened := [29]; fresh := 30 |})) = [].
Proof. vm_compute. auto. Qed.

(** ** C8: inputs and labels of the data set descriptor *)

Lemma markings_prefix (t1 t2 : list Event) :
  prefix t1 t2 -> prefix (markings t1) (markings t2).
Proof.
  intros [k ->]. exists (markings k). unfold markings. apply flat_map_app.
Qed.

(** Whatever the data file holds, the calm run marks the columns of the
    data set descriptor twice: all but the last as inputs, then the last
    as labels. *)
Lemma sklearn_calm_markings (libs : Libs) :
  exists dataset_info,
    existsb (creates_from SklearnNotebook.iris_csv dataset_info)
      (trace (snd (run SklearnNotebook.notebook
                     {| w_fault := fun _ => None; w_libs := libs |}))) = true /\
    markings (trace (snd (run SklearnNotebook.notebook
                            {| w_fault := fun _ => None; w_libs := libs |})))
    = [("mark_inputs", dataset_info,
        [strs (SklearnNotebook.input_columns (lib_read_csv libs SklearnNotebook.iris_csv))]);
       ("mark_labels", dataset_info,
        [strs (SklearnNotebook.label_columns (lib_read_csv libs SklearnNotebook.iris_csv))])].
Proof.
  destruct libs as [[[a b] [c d]] fmt to_categorical read_csv].
  cbn [lib_read_csv]. unfold SklearnNotebook.iris_csv.
  destruct (run SklearnNotebook.notebook _) as [r0 st0] eqn:H.
  calm_run H; injection H as <- <-;
    eexists; (split; [|reflexivity]); reflexivity.
Qed.

(** C8: In the scikit-learn notebook the data set descriptor is told its
    inputs and labels by one call of [mark_inputs] with
    [data.columns[:-1]] followed by one call of [mark_labels] with
    [data.columns[-1:]], where [data] is the frame read from the data
    file; a run cut short by an exception has made none, the first or
    both of these calls, and no other.  For a frame with at least one
    column the two lists are all columns but the last and exactly the
    last: they select disjoint positions that together cover every
    column, and with distinct column labels, as [read_csv] yields them, no
    label is marked both ways. *)
Theorem C8_inputs_labels_partition (w : World) (data : DataFrame) :
  lib_read_csv (w_libs w) SklearnNotebook.iris_csv = data ->
  1 <= length (columns data) ->
  (exists dataset_info,
      existsb (creates_from SklearnNotebook.iris_csv dataset_info)
        (trace (snd (run SklearnNotebook.notebook (calm w)))) = true /\
      markings (trace (snd (run SklearnNotebook.notebook (calm w))))
      = [("mark_inputs", dataset_info, [strs (SklearnNotebook.input_columns data)]);
         ("mark_labels", dataset_info, [strs (SklearnNotebook.label_columns data)])] /\
      prefix (markings (trace (snd (run SklearnNotebook.notebook w))))
        [("mark_inputs", dataset_info, [strs (SklearnNotebook.input_columns data)]);
         ("mark_labels", dataset_info, [strs (SklearnNotebook.label_columns data)])] /\
      forall st, run SklearnNotebook.notebook w = (Normal tt, st) ->
        markings (trace st)
        = [("mark_inputs", dataset_info, [strs (SklearnNotebook.input_columns data)]);
           ("mark_labels", dataset_info, [strs (SklearnNotebook.label_columns data)])]) /\
  SklearnNotebook.input_columns data = removelast (columns data) /\
  SklearnNotebook.label_columns data = [last (columns data) ""] /\
  SklearnNotebook.input_columns data ++ SklearnNotebook.label_columns data = columns data /\
  (forall i, i < length (columns data) ->
     Slice.selects None (Some (-1)%Z) (length (columns data)) i
     = negb (Slice.selects (Some (-1)%Z) None (length (columns data)) i)) /\
  (NoDup (columns data) ->
   forall c, In c (SklearnNotebook.input_columns data) ->
             ~ In c (SklearnNotebook.label_columns data)).
Proof.
  intros Hd Hn. split.
  - destruct (sklearn_calm_markings (w_libs w)) as (ds & Hc & Hm).
    rewrite Hd in Hm. exists ds. unfold calm.
    split; [exact Hc|]. split; [exact Hm|]. split.
    + rewrite <- Hm. apply markings_prefix. apply (run_prefix _ w lawful_sklearn).
    + intros st E. apply run_normal_calm in E; [|apply lawful_sklearn].
      unfold calm in E. rewrite E in Hm. exact Hm.
  - unfold SklearnNotebook.input_columns, SklearnNotebook.label_columns.
    assert (Hl : columns data <> [])
      by (destruct (columns data); [simpl in Hn; lia | congruence]).
    rewrite slice_all_but_last, (slice_last _ "" Hl).
    repeat split.
    + symmetry. apply app_removelast_last. exact Hl.
    + intros i Hi. unfold Slice.selects.
      rewrite bounds_all_but_last, bounds_last by exact Hn.
      destruct (Nat.ltb_spec i (length (columns data) - 1));
        destruct (Nat.leb_spec (length (columns data) - 1) i);
        destruct (Nat.ltb_spec i (length (columns data))); simpl; try reflexivity; lia.
    + intros Hnd c Hin [Hc | []]. subst c.
      exact (last_not_in_removelast _ _ Hnd Hin).
Qed.

Lemma C8_inputs_labels_partition_witness :
  lib_read_csv (w_libs Sample.quiet) SklearnNotebook.iris_csv = Sample.iris /\
  1 <= length (columns Sample.iris) /\
  (exists dataset_info st,
      run SklearnNotebook.notebook Sample.quiet = (Normal tt, st) /\
      markings (trace st)
      = [("mark_inputs", dataset_info,
          [strs ["sepal_length"; "sepal_width"; "petal_length"; "petal_width"]]);
         ("mark_labels", dataset_info, [strs ["species"]])]) /\
  SklearnNotebook.input_columns Sample.iris ++ SklearnNotebook.label_columns Sample.iris
    = columns Sample.iris.
Proof.
  assert (Hd : lib_read_csv (w_libs Sample.quiet) SklearnNotebook.iris_csv = Sample.iris)
    by reflexivity.
  assert (Hn : 1 <= length (columns Sample.iris)) by (simpl; lia).
  assert (E : run SklearnNotebook.notebook Sample.quiet
              = (Normal tt, snd (run SklearnNotebook.notebook Sample.quiet)))
    by (vm_compute; reflexivity).
  split; [exact Hd|]. split; [exact Hn|].
  destruct (C8_inputs_labels_partition Sample.quiet Sample.iris Hd Hn)
    as ((ds & _ & _ & _ & Hm) & H1 & H2 & H3 & _).
  split; [|exact H3].
  exists ds, (snd (run SklearnNotebook.notebook Sample.quiet)).
  split; [exact E|].
  rewrite (Hm _ E), H1, H2. reflexivity.
Defined.

(** * Further properties of the cells *)

(** ** The reshape of the images *)

Lemma shape0_nil (a : ndarray) : shape a = [] -> shape0 a = Raised IndexError.
Proof. intros E. unfold shape0. rewrite E. reflexivity. Qed.

Lemma reshape_mismatch (a : ndarray) (dims : list nat) :
  size a <> prod dims -> reshape a dims = Raised ValueError.
Proof.
  intros H. unfold reshape.
  destruct (Nat.eqb_spec (prod dims) (size a)); [congruence | reflexivity].
Qed.

(** X1: The reshape of lines 81-88 returns exactly when each of the two
    image arrays has a first axis and 784 elements per entry of it; it
    raises [IndexError] for an array without axes and [ValueError] for one
    with another number of elements, the training array being looked at
    first.  The shape of the loaded images is not checked beyond that. *)
Theorem reshape_images_outcome (fmt : string) (x_train x_test : ndarray) :
  (shape x_train = [] ->
   KerasNotebook.reshape_images fmt x_train x_test = Raised IndexError) /\
  (forall n rest, shape x_train = n :: rest -> size x_train <> n * 784 ->
   KerasNotebook.reshape_images fmt x_train x_test = Raised ValueError) /\
  (reshapable x_train -> shape x_test = [] ->
   KerasNotebook.reshape_images fmt x_train x_test = Raised IndexError) /\
  (reshapable x_train ->
   forall n rest, shape x_test = n :: rest -> size x_test <> n * 784 ->
   KerasNotebook.reshape_images fmt x_train x_test = Raised ValueError) /\
  ((exists r, KerasNotebook.reshape_images fmt x_train x_test = Ok r)
   <-> reshapable x_train /\ reshapable x_test).
Proof.
  unfold KerasNotebook.reshape_images, KerasNotebook.img_rows, KerasNotebook.img_cols.
  split; [|split; [|split; [|split]]].
  - intros E. rewrite (shape0_nil _ E). destruct (String.eqb fmt "channels_first"); reflexivity.
  - intros n rest E H. rewrite (shape0_cons _ _ _ E).
    destruct (String.eqb fmt "channels_first");
      rewrite reshape_mismatch; try reflexivity;
      rewrite ?prod_first, ?prod_last; exact H.
  - intros (n & rest & E & Z) Et. rewrite (shape0_cons _ _ _ E), (shape0_nil _ Et).
    destruct (String.eqb fmt "channels_first");
      rewrite reshape_total; try reflexivity;
      rewrite ?prod_first, ?prod_last; exact Z.
  - intros (n & rest & E & Z) m rest' Et H.
    rewrite (shape0_cons _ _ _ E), (shape0_cons _ _ _ Et).
    destruct (String.eqb fmt "channels_first");
      rewrite reshape_total by (rewrite ?prod_first, ?prod_last; exact Z);
      rewrite reshape_mismatch; try reflexivity;
      rewrite ?prod_first, ?prod_last; exact H.
  - split.
    + intros [[[a b] s] H].
      fold KerasNotebook.img_rows KerasNotebook.img_cols in H.
      change (KerasNotebook.reshape_images fmt x_train x_test = Ok (a, b, s)) in H.
      destruct (reshape_images_inv _ _ _ _ _ _ H)
        as (n & m & E1 & E2 & _ & _ & _ & _ & Z1 & Z2 & _).
      destruct (shape0_inv _ _ E1) as [r1 S1]. destruct (shape0_inv _ _ E2) as [r2 S2].
      split; [exists n, r1 | exists m, r2]; auto.
    + intros [(n & r1 & E1 & Z1) (m & r2 & E2 & Z2)].
      rewrite (shape0_cons _ _ _ E1), (shape0_cons _ _ _ E2).
      destruct (String.eqb fmt "channels_first");
        rewrite !reshape_total by (rewrite ?prod_first, ?prod_last; assumption);
        eexists; reflexivity.
Qed.

Lemma reshape_images_outcome_witness :
  shape (Edge.small_images 3) = [3; 14; 14] /\
  size (Edge.small_images 3) <> 3 * 784 /\
  KerasNotebook.reshape_images "channels_first" (Edge.small_images 3) (Sample.images 2)
    = Raised ValueError.
Proof.
  assert (E : shape (Edge.small_images 3) = [3; 14; 14]) by reflexivity.
  assert (H : size (Edge.small_images 3) <> 3 * 784) by (vm_compute; lia).
  split; [exact E|]. split; [exact H|].
  destruct (reshape_images_outcome "channels_first" (Edge.small_images 3) (Sample.images 2))
    as (_ & R & _).
  exact (R 3 [14; 14] E H).
Defined.

(** X2: Which branch of the [K.image_data_format()] conditional runs
    decides neither whether the reshape succeeds nor which elements the
    arrays hold: with another format the same inputs reshape as well, to
    arrays of the same elements, the same number of samples and as many
    elements per sample. *)
Theorem reshape_images_any_format (fmt fmt' : string) (x_train x_test a b : ndarray)
    (s : list nat) :
  KerasNotebook.reshape_images fmt x_train x_test = Ok (a, b, s) ->
  exists a' b' s',
    KerasNotebook.reshape_images fmt' x_train x_test = Ok (a', b', s') /\
    data a' = data a /\ data b' = data b /\
    shape0 a' = shape0 a /\ shape0 b' = shape0 b /\
    prod s' = prod s.
Proof.
  intros H.
  destruct (reshape_images_inv _ _ _ _ _ _ H)
    as (n & m & E1 & E2 & S1 & S2 & D1 & D2 & Z1 & Z2 & I).
  destruct (shape0_inv _ _ E1) as [r1 X1]. destruct (shape0_inv _ _ E2) as [r2 X2].
  destruct (reshape_images_total fmt' x_train x_test) as [[[a' b'] s'] H'].
  { exists n, r1. auto. }
  { exists m, r2. auto. }
  exists a', b', s'. split; [exact H'|].
  destruct (reshape_images_inv _ _ _ _ _ _ H')
    as (n' & m' & E1' & E2' & S1' & S2' & D1' & D2' & _ & _ & I').
  rewrite E1 in E1'. injection E1' as <-. rewrite E2 in E2'. injection E2' as <-.
  rewrite (shape0_cons _ _ _ S1), (shape0_cons _ _ _ S2),
          (shape0_cons _ _ _ S1'), (shape0_cons _ _ _ S2'), D1, D2, D1', D2'.
  repeat split; auto.
  rewrite I, I'.
  destruct (String.eqb fmt "channels_first"), (String.eqb fmt' "channels_first"); reflexivity.
Qed.

Lemma reshape_images_any_format_witness :
  KerasNotebook.reshape_images "channels_last" (Sample.images 3) (Sample.images 2)
    = Ok ({| shape := [3; 28; 28; 1]; data := data (Sample.images 3) |},
          {| shape := [2; 28; 28; 1]; data := data (Sample.images 2) |},
          [28; 28; 1]) /\
  exists a' b' s',
    KerasNotebook.reshape_images "channels_first" (Sample.images 3) (Sample.images 2)
      = Ok (a', b', s') /\
    data a' = data (Sample.images 3) /\
    prod s' = prod [28; 28; 1].
Proof.
  assert (H : KerasNotebook.reshape_images "channels_last" (Sample.images 3) (Sample.images 2)
              = Ok ({| shape := [3; 28; 28; 1]; data := data (Sample.images 3) |},
                    {| shape := [2; 28; 28; 1]; data := data (Sample.images 2) |},
                    [28; 28; 1])) by (vm_compute; reflexivity).
  split; [exact H|].
  destruct (reshape_images_any_format _ "channels_first" _ _ _ _ _ H)
    as (a' & b' & s' & H' & D1 & _ & _ & _ & P).
  exists a', b', s'. auto.
Defined.

(** ** What the models are fitted on *)

(** X3: In a run of the Keras notebook that ends normally, the images
    given to [model.fit] are the first [min 100 n] of the [n] loaded
    training images, element by element in the order they were loaded,
    each cast to float32 and divided by 255 exactly once; the array is
    well formed (as many elements as its shape says).  The images given
    to [model.evaluate], which are also the validation images of the fit,
    are all loaded test images, normalised the same way. *)
Theorem fit_images_normalised (w : World) (st : State) (x0 y0 xt0 yt0 : ndarray) (n : nat) :
  lib_mnist (w_libs w) = ((x0, y0), (xt0, yt0)) ->
  shape0 x0 = Ok n ->
  run KerasNotebook.notebook w = (Normal tt, st) ->
  exists model x_fit y_fit x_test y_test r_fit r_eval,
    filter is_fit (trace st)
      = [Call (Meth model "fit")
           [AArr x_fit; AArr y_fit;
            AKw "batch_size" (AInt 128); AKw "epochs" (AInt 4); AKw "verbose" (AInt 1);
            AKw "validation_data" (ATuple [AArr x_test; AArr y_test])]
           r_fit] /\
    filter is_evaluate (trace st)
      = [Call (Meth model "evaluate") [AArr x_test; AArr y_test; AKw "verbose" (AInt 0)]
           r_eval] /\
    shape0 x_fit = Ok (Nat.min 100 n) /\
    data x_fit = map normalised (firstn (Nat.min 100 n * 784) (data x0)) /\
    wf x_fit /\
    shape0 x_test = shape0 xt0 /\
    data x_test = map normalised (data xt0) /\
    wf x_test.
Proof.
  intros L En E.
  destruct (keras_fit_and_evaluate w st x0 y0 xt0 yt0 L E)
    as (x1 & xt1 & ish & model & x_fit & y_fit & r_fit & r_eval & H & Hx & Hy & Hf & He).
  destruct (prepared_images_normalised _ _ _ _ _ _ _ _ H En Hx) as (S & D & W & Dt & Wt).
  exists model, x_fit, y_fit, (itruediv (astype "float32" xt1) 255),
    (lib_to_categorical (w_libs w) yt0 KerasNotebook.num_classes), r_fit, r_eval.
  split; [exact Hf|]. split; [exact He|].
  split; [exact (shape0_cons _ _ _ S)|]. split; [exact D|]. split; [exact W|].
  split; [|split; [exact Dt | exact Wt]].
  destruct (reshape_images_inv _ _ _ _ _ _ H)
    as (n_train & n_test & E1 & E2 & S1 & S2 & _).
  unfold shape0. simpl shape.
  match goal with |- Slice.index 0 (shape ?x) = _ => fold (shape0 x) end.
  rewrite (shape0_cons _ _ _ S2). symmetry. exact E2.
Qed.

Lemma fit_images_normalised_witness :
  lib_mnist (w_libs Edge.many_images)
    = ((Sample.images 150, Sample.digits (repeat 7%Z 150)),
       (Sample.images 2, Sample.digits [7; 2]%Z)) /\
  shape0 (Sample.images 150) = Ok 150 /\
  exists st model x_fit fit_rest r_fit,
    run KerasNotebook.notebook Edge.many_images = (Normal tt, st) /\
    filter is_fit (trace st) = [Call (Meth model "fit") (AArr x_fit :: fit_rest) r_fit] /\
    shape0 x_fit = Ok 100 /\
    data x_fit = map normalised (firstn (100 * 784) (data (Sample.images 150))) /\
    wf x_fit.
Proof.
  assert (L : lib_mnist (w_libs Edge.many_images)
              = ((Sample.images 150, Sample.digits (repeat 7%Z 150)),
                 (Sample.images 2, Sample.digits [7; 2]%Z))) by reflexivity.
  assert (En : shape0 (Sample.images 150) = Ok 150) by reflexivity.
  assert (R : forall k, reshapable (Sample.images k)).
  { intros k. exists k, [28; 28]. split; [reflexivity|].
    unfold size, Sample.images. cbn [data]. rewrite length_map, length_seq. lia. }
  split; [exact L|]. split; [exact En|].
  destruct (reshape_images_total "channels_last" _ _ (R 150) (R 2)) as [r Hr].
  destruct (keras_calm_outcome (w_libs Edge.many_images) _ _ _ _ L) as (_ & _ & K).
  destruct (K r Hr) as (st & E & _); [discriminate|].
  change (run KerasNotebook.notebook Edge.many_images = (Normal tt, st)) in E.
  destruct (fit_images_normalised _ _ _ _ _ _ 150 L En E)
    as (model & x_fit & y_fit & x_test & y_test & r_fit & r_eval
        & Hf & _ & Hs & Hd & Hw & _).
  rewrite (Nat.min_l 100 150) in Hs, Hd by lia.
  exists st, model, x_fit. do 2 eexists.
  split; [exact E|]. split; [exact Hf|]. split; [exact Hs|]. split; [exact Hd | exact Hw].
Defined.

(** X4: In a run of the scikit-learn notebook that ends normally on a
    data frame with one cell per column in every row, the one call
    [model.fit(data.values[:, :-1], data.values[:, -1])] (line 410), made
    on the [SVC] built before, gets one feature row and one target per row
    of the frame: the target is the last cell of the row and the feature
    row holds the cells before it, as many as there are columns marked as
    inputs. *)
Theorem features_and_target_split_rows (w : World) (st : State) (d : DataFrame) :
  lib_read_csv (w_libs w) SklearnNotebook.iris_csv = d ->
  rectangular d ->
  run SklearnNotebook.notebook w = (Normal tt, st) ->
  exists model X y r,
    existsb (constructs ["sklearn"; "svm"; "SVC"] model) (trace st) = true /\
    filter is_fit (trace st) = [Call (Meth model "fit") [ATable X; strs y] r] /\
    length X = length (rows d) /\
    length y = length (rows d) /\
    forall i row, nth_error (rows d) i = Some row ->
      exists x_i y_i,
        nth_error X i = Some x_i /\
        nth_error y i = Some y_i /\
        row = x_i ++ [y_i] /\
        length x_i = length (SklearnNotebook.input_columns d).
Proof.
  intros Hd Hr E.
  destruct (sklearn_fit w st E) as (model & y & r & Hv & Hm & Hf).
  rewrite Hd in Hv, Hf.
  assert (Hc : columns d <> []).
  { intros Z. rewrite (values_col_no_columns d Z) in Hv. discriminate Hv. }
  destruct (values_split_rows d Hc Hr) as (y' & Hy & Ly & Lx & Hrows).
  rewrite Hv in Hy. injection Hy as <-.
  exists model, (values_cols None (Some (-1)%Z) d), y, r.
  split; [exact Hm|]. split; [exact Hf|]. split; [exact Lx|]. split; [exact Ly | exact Hrows].
Qed.

Lemma features_and_target_split_rows_witness :
  lib_read_csv (w_libs Sample.quiet) SklearnNotebook.iris_csv = Sample.iris /\
  rectangular Sample.iris /\
  run SklearnNotebook.notebook Sample.quiet
    = (Normal tt, snd (run SklearnNotebook.notebook Sample.quiet)) /\
  exists model X y r,
    filter is_fit (trace (snd (run SklearnNotebook.notebook Sample.quiet)))
      = [Call (Meth model "fit") [ATable X; strs y] r] /\
    nth_error X 1 = Some ["7.0"; "3.2"; "4.7"; "1.4"] /\
    nth_error y 1 = Some "versicolor".
Proof.
  assert (Hd : lib_read_csv (w_libs Sample.quiet) SklearnNotebook.iris_csv = Sample.iris)
    by reflexivity.
  assert (Hr : rectangular Sample.iris).
  { intros r Hin. simpl in Hin.
    repeat (destruct Hin as [<- | Hin]; [reflexivity|]). destruct Hin. }
  assert (E : run SklearnNotebook.notebook Sample.quiet
              = (Normal tt, snd (run SklearnNotebook.notebook Sample.quiet)))
    by (vm_compute; reflexivity).
  split; [exact Hd|]. split; [exact Hr|]. split; [exact E|].
  destruct (features_and_target_split_rows _ _ _ Hd Hr E)
    as (model & X & y & r & _ & Hf & _ & _ & H).
  exists model, X, y, r. split; [exact Hf|].
  destruct (H 1 ["7.0"; "3.2"; "4.7"; "1.4"; "versicolor"] eq_refl)
    as (x_i & y_i & Hx & Hy & Eq & _).
  change ["7.0"; "3.2"; "4.7"; "1.4"; "versicolor"]
    with (["7.0"; "3.2"; "4.7"; "1.4"] ++ ["versicolor"]) in Eq.
  apply app_inj_tail in Eq. destruct Eq as [<- <-]. split; [exact Hx | exact Hy].
Defined.

(** ** How a run without faults ends *)

(** X5: How the Keras notebook ends when no library raises.  If the
    loaded images cannot be reshaped, the run stops with that error right
    after [K.image_data_format()], nine steps in: no model is fitted, no
    file is touched, nothing is published.  If they can and
    [to_categorical] returns label arrays with a first axis (also empty
    ones), the run goes through all 64 steps and ends normally. *)
Theorem keras_run_outcome (w : World) (x0 y0 xt0 yt0 : ndarray) :
  lib_mnist (w_libs w) = ((x0, y0), (xt0, yt0)) ->
  (forall e,
      KerasNotebook.reshape_images (lib_image_data_format (w_libs w)) x0 xt0 = Raised e ->
      fst (run KerasNotebook.notebook (calm w)) = Uncaught (Local e) /\
      length (trace (snd (run KerasNotebook.notebook (calm w)))) = 9 /\
      existsb is_fit (trace (snd (run KerasNotebook.notebook (calm w)))) = false /\
      existsb (fun ev => match touches ev with Some (File _) => true | _ => false end)
        (trace (snd (run KerasNotebook.notebook (calm w)))) = false /\
      existsb is_publish (trace (snd (run KerasNotebook.notebook (calm w)))) = false) /\
  (reshapable x0 -> reshapable xt0 ->
   shape (lib_to_categorical (w_libs w) y0 KerasNotebook.num_classes) <> [] ->
   fst (run KerasNotebook.notebook (calm w)) = Normal tt /\
   length (trace (snd (run KerasNotebook.notebook (calm w)))) = 64).
Proof.
  intros L. unfold calm.
  destruct w as [fault [[[a b] [c d]] fmt to_categorical read_csv]].
  simpl in L. injection L as -> -> -> ->. simpl w_libs.
  simpl lib_image_data_format. simpl lib_to_categorical.
  destruct (run KerasNotebook.notebook _) as [r st] eqn:H. simpl fst. simpl snd.
  split.
  - intros e He. calm_run H; try congruence.
    injection He as <-. injection H as <- <-. vm_compute. auto.
  - intros R1 R2 Hy.
    destruct (reshape_images_total fmt x0 xt0 R1 R2) as [[[x1 xt1] s] Hr].
    calm_run H; try congruence; try keras_impossible.
    + injection H as <- <-. vm_compute. auto.
    + exfalso.
      match goal with X : take_rows _ (to_categorical y0 _) = Raised _ |- _ =>
        apply take_rows_raised in X; destruct X as [X _]; exact (Hy X) end.
Qed.

Lemma keras_run_outcome_witness :
  lib_mnist (w_libs (Edge.with_images (Edge.small_images 3) (Sample.images 2)))
    = ((Edge.small_images 3, Sample.digits [5; 0; 4]%Z),
       (Sample.images 2, Sample.digits [7; 2]%Z)) /\
  KerasNotebook.reshape_images "channels_first" (Edge.small_images 3) (Sample.images 2)
    = Raised ValueError /\
  fst (run KerasNotebook.notebook
         (calm (Edge.with_images (Edge.small_images 3) (Sample.images 2))))
    = Uncaught (Local ValueError) /\
  length (trace (snd (run KerasNotebook.notebook
                        (calm (Edge.with_images (Edge.small_images 3) (Sample.images 2))))))
    = 9.
Proof.
  assert (L : lib_mnist (w_libs (Edge.with_images (Edge.small_images 3) (Sample.images 2)))
              = ((Edge.small_images 3, Sample.digits [5; 0; 4]%Z),
                 (Sample.images 2, Sample.digits [7; 2]%Z))) by reflexivity.
  assert (E : KerasNotebook.reshape_images "channels_first"
                (Edge.small_images 3) (Sample.images 2) = Raised ValueError)
    by (vm_compute; reflexivity).
  split; [exact L|]. split; [exact E|].
  destruct (keras_run_outcome _ _ _ _ _ L) as [H _].
  destruct (H ValueError E) as (H1 & H2 & _).
  split; [exact H1 | exact H2].
Defined.

(** X6: How the scikit-learn notebook ends when no library raises.  With
    a data frame without columns, [data.values[:, -1]] raises
    [IndexError]: no model is fitted or pickled, nothing is published.
    With columns but none called [species], [data['species']] raises
    [KeyError]; with more than one column called [species],
    [data['species']] is a frame and [.unique()] raises [AttributeError].
    In both cases the model was fitted and pickled, but no descriptor is
    made from the pickle and nothing is published.  With exactly one
    [species] column the run goes through all 44 steps and ends
    normally. *)
Theorem sklearn_run_outcome (w : World) :
  (columns (lib_read_csv (w_libs w) SklearnNotebook.iris_csv) = [] ->
   fst (run SklearnNotebook.notebook (calm w)) = Uncaught (Local IndexError) /\
   existsb is_fit (trace (snd (run SklearnNotebook.notebook (calm w)))) = false /\
   existsb (fun ev => match touches ev with
                      | Some (File p) => String.eqb p SklearnNotebook.model_pkl
                      | _ => false
                      end) (trace (snd (run SklearnNotebook.notebook (calm w)))) = false /\
   existsb is_publish (trace (snd (run SklearnNotebook.notebook (calm w)))) = false) /\
  (forall e,
   columns (lib_read_csv (w_libs w) SklearnNotebook.iris_csv) <> [] ->
   (~ In "species" (columns (lib_read_csv (w_libs w) SklearnNotebook.iris_csv)) /\
    e = KeyError "species") \/
   (1 < label_count "species" (lib_read_csv (w_libs w) SklearnNotebook.iris_csv) /\
    e = AttributeError "unique") ->
   fst (run SklearnNotebook.notebook (calm w)) = Uncaught (Local e) /\
   length (trace (snd (run SklearnNotebook.notebook (calm w)))) = 33 /\
   existsb is_fit (trace (snd (run SklearnNotebook.notebook (calm w)))) = true /\
   existsb (fun ev => match ev with
                      | Call (Fn q) (AStr p :: _) _ =>
                          path_eqb q ["builtins"; "open"]
                          && String.eqb p SklearnNotebook.model_pkl
                      | _ => false
                      end) (trace (snd (run SklearnNotebook.notebook (calm w)))) = true /\
   existsb (fun ev => match ev with
                      | Call (Fn q) (AStr p :: _) _ =>
                          String.eqb (last q "") "create_model"
                          && String.eqb p SklearnNotebook.model_pkl
                      | _ => false
                      end) (trace (snd (run SklearnNotebook.notebook (calm w)))) = false /\
   existsb is_publish (trace (snd (run SklearnNotebook.notebook (calm w)))) = false) /\
  (label_count "species" (lib_read_csv (w_libs w) SklearnNotebook.iris_csv) = 1 ->
   fst (run SklearnNotebook.notebook (calm w)) = Normal tt /\
   length (trace (snd (run SklearnNotebook.notebook (calm w)))) = 44) /\
  (fst (run SklearnNotebook.notebook (calm w)) = Normal tt ->
   label_count "species" (lib_read_csv (w_libs w) SklearnNotebook.iris_csv) = 1).
Proof.
  unfold calm.
  destruct w as [fault [[[a b] [c d]] fmt to_categorical read_csv]].
  simpl w_libs. simpl lib_read_csv. unfold SklearnNotebook.iris_csv.
  destruct (run SklearnNotebook.notebook _) as [r st] eqn:H. simpl fst. simpl snd.
  split; [|split; [|split]].
  - intros Hc. pose proof (values_col_no_columns _ Hc) as V.
    calm_run H; try congruence.
    injection V as ->. injection H as <- <-. vm_compute. auto.
  - intros e Hc Hs. pose proof (values_col_last _ Hc) as V.
    assert (U : column_unique "species" (read_csv "scikit_learn_model/iris.csv") = Raised e).
    { destruct Hs as [[Hs ->] | [Hs ->]].
      - destruct (column_unique "species" _) as [classes|e] eqn:X.
        + apply column_unique_ok in X. destruct X as [X _]. exfalso. exact (Hs X).
        + apply column_unique_raised in X. destruct X as [[_ ->] | [X _]]; [reflexivity|].
          exfalso. apply Hs. apply label_count_In. lia.
      - apply column_unique_twice. exact Hs. }
    clear Hs.
    calm_run H; try congruence.
    injection U as ->. injection H as <- <-. vm_compute. auto 10.
  - intros Hs.
    assert (Hc : columns (read_csv "scikit_learn_model/iris.csv") <> []).
    { intros E. unfold label_count in Hs. rewrite E in Hs. discriminate Hs. }
    pose proof (values_col_last _ Hc) as V.
    apply column_unique_once in Hs. destruct Hs as [classes U].
    calm_run H; try congruence.
    injection H as <- <-. vm_compute. auto.
  - intros ->.
    calm_run H; try discriminate H.
    apply column_unique_once. eexists.
    match goal with X : column_unique _ _ = Ok _ |- _ => exact X end.
Qed.

Lemma sklearn_run_outcome_witness :
  columns (lib_read_csv (w_libs (Edge.with_frame Edge.two_species)) SklearnNotebook.iris_csv)
    <> [] /\
  1 < label_count "species"
        (lib_read_csv (w_libs (Edge.with_frame Edge.two_species)) SklearnNotebook.iris_csv) /\
  fst (run SklearnNotebook.notebook (calm (Edge.with_frame Edge.two_species)))
    = Uncaught (Local (AttributeError "unique")) /\
  existsb is_publish
    (trace (snd (run SklearnNotebook.notebook (calm (Edge.with_frame Edge.two_species)))))
    = false /\
  label_count "species"
    (lib_read_csv (w_libs Sample.quiet) SklearnNotebook.iris_csv) = 1 /\
  fst (run SklearnNotebook.notebook (calm Sample.quiet)) = Normal tt /\
  ~ In "species"
      (columns (lib_read_csv (w_libs (Edge.with_frame Edge.no_species))
                  SklearnNotebook.iris_csv)) /\
  fst (run SklearnNotebook.notebook (calm (Edge.with_frame Edge.no_species)))
    = Uncaught (Local (KeyError "species")) /\
  columns (lib_read_csv (w_libs (Edge.with_frame Edge.no_columns)) SklearnNotebook.iris_csv)
    = [] /\
  fst (run SklearnNotebook.notebook (calm (Edge.with_frame Edge.no_columns)))
    = Uncaught (Local IndexError).
Proof.
  assert (Hc : columns (lib_read_csv (w_libs (Edge.with_frame Edge.two_species))
                          SklearnNotebook.iris_csv) <> []) by discriminate.
  assert (Hs : 1 < label_count "species"
                     (lib_read_csv (w_libs (Edge.with_frame Edge.two_species))
                        SklearnNotebook.iris_csv)) by (vm_compute; lia).
  assert (H1 : label_count "species"
                 (lib_read_csv (w_libs Sample.quiet) SklearnNotebook.iris_csv) = 1)
    by reflexivity.
  split; [exact Hc|]. split; [exact Hs|].
  destruct (sklearn_run_outcome (Edge.with_frame Edge.two_species)) as (_ & H & _).
  destruct (H (AttributeError "unique") Hc (or_intror (conj Hs eq_refl)))
    as (R & _ & _ & _ & _ & P).
  split; [exact R|]. split; [exact P|]. split; [exact H1|].
  destruct (sklearn_run_outcome Sample.quiet) as (_ & _ & N & _).
  split; [exact (proj1 (N H1))|].
  assert (Hk : ~ In "species"
                 (columns (lib_read_csv (w_libs (Edge.with_frame Edge.no_species))
                             SklearnNotebook.iris_csv))).
  { simpl. intros [X | [X | [X | []]]]; discriminate X. }
  assert (Hk' : columns (lib_read_csv (w_libs (Edge.with_frame Edge.no_species))
                           SklearnNotebook.iris_csv) <> []) by discriminate.
  split; [exact Hk|].
  destruct (sklearn_run_outcome (Edge.with_frame Edge.no_species)) as (_ & K & _).
  split; [exact (proj1 (K (KeyError "species") Hk' (or_introl (conj Hk eq_refl))))|].
  split; [reflexivity|].
  destruct (sklearn_run_outcome (Edge.with_frame Edge.no_columns)) as (I & _).
  exact (proj1 (I eq_refl)).
Defined.

(** ** What the model descriptor is made from *)

(** X7: In a run of the scikit-learn notebook that ends normally,
    [ScikitLearnModel.create_model] (lines 440-441) is given the pickle
    file of the model, as [n_input_columns] the number of columns that
    were marked as inputs of the data set, and as [classes] the values of
    the [species] column, each once. *)
Theorem model_descriptor_arguments (w : World) (st : State) :
  run SklearnNotebook.notebook w = (Normal tt, st) ->
  exists classes model_info j,
    In (Call (Fn ["dlhub_sdk"; "models"; "servables"; "sklearn"; "ScikitLearnModel";
                  "create_model"])
          [AStr SklearnNotebook.model_pkl;
           AKw "n_input_columns"
             (AInt (Z.of_nat (length (SklearnNotebook.input_columns
                                        (lib_read_csv (w_libs w) SklearnNotebook.iris_csv)))));
           AKw "classes" (strs classes)]
          model_info) (trace st) /\
    NoDup classes /\
    index_of "species" (columns (lib_read_csv (w_libs w) SklearnNotebook.iris_csv)) = Some j /\
    forall c, In c classes <->
              In c (map (fun r => nth j r "")
                      (rows (lib_read_csv (w_libs w) SklearnNotebook.iris_csv))).
Proof.
  intros E. apply run_normal_calm in E; [|apply lawful_sklearn]. unfold calm in E.
  destruct w as [fault [[[a b] [c d]] fmt to_categorical read_csv]].
  cbn [w_libs lib_read_csv] in *. unfold SklearnNotebook.iris_csv.
  calm_run E; try discriminate E. injection E as <-.
  match goal with
  | X : column_unique _ ?d = Ok ?cl, V : values_col _ ?d = Ok _ |- _ =>
      destruct (column_unique_ok _ _ _ X) as (Hs & Hn & j & Hj & Hc);
      assert (Hne : columns d <> []) by (intros Z; rewrite Z in Hs; exact Hs);
      exists cl; eexists; exists j;
      rewrite <- (input_columns_length d Hne)
  end.
  split; [|auto]. cbn [trace].
  repeat (first [left; reflexivity | right]).
Qed.

Lemma model_descriptor_arguments_witness :
  run SklearnNotebook.notebook Sample.quiet
    = (Normal tt, snd (run SklearnNotebook.notebook Sample.quiet)) /\
  exists classes, NoDup classes /\
    forall c, In c classes <-> In c ["setosa"; "versicolor"; "virginica"; "setosa"].
Proof.
  assert (E : run SklearnNotebook.notebook Sample.quiet
              = (Normal tt, snd (run SklearnNotebook.notebook Sample.quiet)))
    by (vm_compute; reflexivity).
  split; [exact E|].
  destruct (model_descriptor_arguments _ _ E) as (classes & info & j & _ & Hn & Hj & Hc).
  exists classes. split; [exact Hn|].
  injection Hj as <-. exact Hc.
Defined.

(** ** Between the print of the descriptor and its publication *)

(** X9: In a run of either notebook that ends normally, the last seven
    steps are: [to_dict] on the descriptor, [json.dumps] of the dictionary,
    the print of that text, [import dlhub_sdk], the [DLHubClient]
    constructor, [publish_servable] of the same descriptor, and the print
    of the task ID.  So the metadata that is printed is the metadata that
    is published: no step changes the descriptor in between. *)
Theorem printed_descriptor_is_published (title : string) (nb : M unit) (w : World)
    (st : State) :
  In (title, nb) notebooks ->
  run nb w = (Normal tt, st) ->
  exists before d dict text client task,
    trace st = before ++
      [Call (Meth d "to_dict") [] dict;
       Call (Fn ["json"; "dumps"]) [ARef dict; AKw "indent" (AInt 2)] text;
       Print [ARef text];
       Import ["dlhub_sdk"] [];
       Call (Fn ["dlhub_sdk"; "DLHubClient"]) [] client;
       Call (Meth client "publish_servable") [ARef d] task;
       Print [ARef task]] /\
    existsb (creates d) before = true /\
    existsb (calls "set_title" d) before = true /\
    existsb (calls "set_name" d) before = true /\
    existsb (calls "set_domains" d) before = true.
Proof.
  intros Hin E.
  exists (firstn (length (trace st) - 7) (trace st)).
  destruct Hin as [T | [T | []]]; injection T as _ <-;
    complete_run E w;
    do 5 eexists; (split; [reflexivity|]); vm_compute; auto.
Qed.

Lemma printed_descriptor_is_published_witness :
  In ("Publishing a Scikit-learn model", SklearnNotebook.notebook) notebooks /\
  run SklearnNotebook.notebook Sample.quiet
    = (Normal tt, snd (run SklearnNotebook.notebook Sample.quiet)) /\
  exists before d dict text client task,
    trace (snd (run SklearnNotebook.notebook Sample.quiet)) = before ++
      [Call (Meth d "to_dict") [] dict;
       Call (Fn ["json"; "dumps"]) [ARef dict; AKw "indent" (AInt 2)] text;
       Print [ARef text];
       Import ["dlhub_sdk"] [];
       Call (Fn ["dlhub_sdk"; "DLHubClient"]) [] client;
       Call (Meth client "publish_servable") [ARef d] task;
       Print [ARef task]] /\
    existsb (creates d) before = true.
Proof.
  assert (Hin : In ("Publishing a Scikit-learn model", SklearnNotebook.notebook) notebooks)
    by (right; left; reflexivity).
  assert (E : run SklearnNotebook.notebook Sample.quiet
              = (Normal tt, snd (run SklearnNotebook.notebook Sample.quiet)))
    by (vm_compute; reflexivity).
  split; [exact Hin|]. split; [exact E|].
  destruct (printed_descriptor_is_published _ _ _ _ Hin E)
    as (before & d & dict & text & client & task & H1 & H2 & _).
  exists before, d, dict, text, client, task. auto.
Defined.

(** ** A failure and the publication *)

Lemma keras_publish_late (libs : Libs) :
  publish_late
    (fst (run KerasNotebook.notebook {| w_fault := fun _ => None; w_libs := libs |}))
    (trace (snd (run KerasNotebook.notebook {| w_fault := fun _ => None; w_libs := libs |})))
  = true.
Proof.
  destruct libs as [[[x_train y_train] [x_test y_test]] fmt to_categorical read_csv].
  match goal with |- context [run ?nb ?w] => destruct (run nb w) as [r st] eqn:H end.
  calm_run H; injection H as <- <-; vm_compute; reflexivity.
Qed.

Lemma sklearn_publish_late (libs : Libs) :
  publish_late
    (fst (run SklearnNotebook.notebook {| w_fault := fun _ => None; w_libs := libs |}))
    (trace (snd (run SklearnNotebook.notebook {| w_fault := fun _ => None; w_libs := libs |})))
  = true.
Proof.
  destruct libs as [[[x_train y_train] [x_test y_test]] fmt to_categorical read_csv].
  match goal with |- context [run ?nb ?w] => destruct (run nb w) as [r st] eqn:H end.
  calm_run H; injection H as <- <-; vm_compute; reflexivity.
Qed.

Lemma existsb_prefix {A} (f : A -> bool) (l1 l2 : list A) :
  prefix l1 l2 -> existsb f l1 = true -> existsb f l2 = true.
Proof. intros [k ->] H. rewrite existsb_app, H. reflexivity. Qed.

(** X10: A failure before the publish call prevents it.  If a run of
    either notebook ends with an uncaught exception and yet holds a
    [publish_servable] call, then the exception was raised by the very
    last step of the notebook, the print of the task ID: every step
    before the publication had succeeded. *)
Theorem published_only_if_all_before_succeeded (title : string) (nb : M unit)
    (w : World) (e : Exn) (st : State) :
  In (title, nb) notebooks ->
  run nb w = (Uncaught e, st) ->
  existsb is_publish (trace st) = true ->
  exists name,
    e = Library (length (trace st)) name /\
    fst (run nb (calm w)) = Normal tt /\
    length (trace (snd (run nb (calm w)))) = S (length (trace st)).
Proof.
  intros Hin E Hp.
  pose proof (lawful_notebooks title nb Hin) as L.
  assert (Late : publish_late (fst (run nb (calm w))) (trace (snd (run nb (calm w)))) = true).
  { destruct Hin as [T | [T | []]]; injection T as _ <-;
      [apply keras_publish_late | apply sklearn_publish_late]. }
  destruct (law_uncaught nb L _ _ _ _ E) as (P & _ & X).
  fold (run nb (calm w)) in P, X.
  pose proof (existsb_prefix _ _ _ P Hp) as Hc.
  destruct (run nb (calm w)) as [[[]|ec] stc] eqn:C; simpl in *.
  - destruct e as [k name|e0]; [|discriminate X].
    destruct X as (-> & _ & Hk). exists name. split; [reflexivity|]. split; [reflexivity|].
    apply negb_true_iff in Late.
    destruct (Nat.le_gt_cases (length (trace st)) (length (trace stc) - 2)) as [Hle | Hgt];
      [|lia].
    exfalso. destruct P as [rest P].
    assert (Q : prefix (trace st) (firstn (length (trace stc) - 2) (trace stc))).
    { rewrite P, firstn_app.
      exists (firstn (length (trace st ++ rest) - 2 - length (trace st)) rest).
      rewrite firstn_all2; [reflexivity|]. rewrite <- P. exact Hle. }
    rewrite (existsb_prefix _ _ _ Q Hp) in Late. discriminate Late.
  - apply negb_true_iff in Late. rewrite Late in Hc. discriminate Hc.
Qed.

Lemma published_only_if_all_before_succeeded_witness :
  In ("Publishing a Keras model", KerasNotebook.notebook) notebooks /\
  (exists st, run KerasNotebook.notebook (Sample.faulty 63 "BrokenPipeError")
              = (Uncaught (Library 63 "BrokenPipeError"), st) /\
              existsb is_publish (trace st) = true /\
              length (trace (snd (run KerasNotebook.notebook
                                    (calm (Sample.faulty 63 "BrokenPipeError")))))
              = S (length (trace st))).
Proof.
  assert (Hin : In ("Publishing a Keras model", KerasNotebook.notebook) notebooks)
    by (left; reflexivity).
  split; [exact Hin|].
  assert (E : run KerasNotebook.notebook (Sample.faulty 63 "BrokenPipeError")
              = (Uncaught (Library 63 "BrokenPipeError"),
                 snd (run KerasNotebook.notebook (Sample.faulty 63 "BrokenPipeError"))))
    by (vm_compute; reflexivity).
  assert (Hp : existsb is_publish
                 (trace (snd (run KerasNotebook.notebook
                                (Sample.faulty 63 "BrokenPipeError")))) = true)
    by (vm_compute; reflexivity).
  eexists. split; [exact E|]. split; [exact Hp|].
  destruct (published_only_if_all_before_succeeded _ _ _ _ _ Hin E Hp) as (name & _ & _ & H).
  exact H.
Defined.
(** ** The first layer and the data *)

(** X11: In a run of the Keras notebook that ends normally, exactly one
    call is given an [input_shape] keyword: the [Conv2D] call of line 105,
    whose layer is the first one added to the model.  The shape it is
    given is the shape of one sample of the array the model is fitted on,
    and of one sample of the array it is evaluated on. *)
Theorem first_layer_matches_the_data (w : World) (st : State) :
  run KerasNotebook.notebook w = (Normal tt, st) ->
  exists model layer x_fit x_test fit_args eval_args r_fit r_eval r_add,
    filter is_fit (trace st) = [Call (Meth model "fit") (AArr x_fit :: fit_args) r_fit] /\
    filter is_evaluate (trace st)
      = [Call (Meth model "evaluate") (AArr x_test :: eval_args) r_eval] /\
    flat_map (keyword_uses "input_shape") (trace st)
      = [(Fn ["keras"; "layers"; "Conv2D"], KerasNotebook.dims (tl (shape x_fit)), layer)] /\
    find (calls "add" model) (trace st) = Some (Call (Meth model "add") [ARef layer] r_add) /\
    tl (shape x_test) = tl (shape x_fit).
Proof.
  intros E. complete_run E w.
  match goal with
  | H : KerasNotebook.reshape_images _ _ _ = Ok (?x1, ?xt1, ?ish),
    Hx : take_rows 100 (itruediv (astype _ ?x1) _) = Ok ?xf |- _ =>
      destruct (reshape_images_inv _ _ _ _ _ _ H)
        as (n_train & n_test & _ & _ & S1 & S2 & _);
      destruct (take_rows_inv 100 _ _ Hx) as (nx & rest & Sa & Sb & _);
      simpl shape in Sa; rewrite S1 in Sa; injection Sa as <- <-;
      do 2 eexists; exists xf; do 6 eexists;
      split; [reflexivity|]; split; [reflexivity|];
      rewrite Sb; cbn [tl shape itruediv astype]; rewrite S2
  end.
  split; [reflexivity|]. split; [cbv; reflexivity | reflexivity].
Qed.

Lemma first_layer_matches_the_data_witness :
  run KerasNotebook.notebook Sample.quiet
    = (Normal tt, snd (run KerasNotebook.notebook Sample.quiet)) /\
  exists layer x_fit,
    flat_map (keyword_uses "input_shape")
      (trace (snd (run KerasNotebook.notebook Sample.quiet)))
    = [(Fn ["keras"; "layers"; "Conv2D"], KerasNotebook.dims (tl (shape x_fit)), layer)].
Proof.
  assert (E : run KerasNotebook.notebook Sample.quiet
              = (Normal tt, snd (run KerasNotebook.notebook Sample.quiet)))
    by (vm_compute; reflexivity).
  split; [exact E|].
  destruct (first_layer_matches_the_data _ _ E)
    as (model & layer & x_fit & x_test & fa & ea & r1 & r2 & r3 & _ & _ & H & _).
  exists layer, x_fit. exact H.
Defined.

(** ** Skipping the training cell *)

Lemma lawful_keras_without_training : lawful keras_without_training.
Proof.
  unfold keras_without_training, KerasNotebook.describe,
    KerasNotebook.enrich, KerasNotebook.describe_io, KerasNotebook.set_description,
    KerasNotebook.show, KerasNotebook.publish.
  cell_tac.
Qed.

(** X12: The cells after the training cell can be run without it, as the
    notebook says.  In every run of them no step calls into Keras and the
    only file touched is [keras_model.hd5]; when no library raises they
    end normally after 24 steps, having created a descriptor from that
    file, given it title, name and domains, printed it and published it.
    No model is fitted in such a run. *)
Theorem training_cell_can_be_skipped (w : World) :
  (forall e q, In e (trace (snd (run keras_without_training w))) ->
               callable e = Some q -> from_keras q = false) /\
  (forall e x, In e (trace (snd (run keras_without_training w))) ->
               touches e = Some x -> x = File "keras_model.hd5") /\
  fst (run keras_without_training (calm w)) = Normal tt /\
  length (trace (snd (run keras_without_training (calm w)))) = 24 /\
  existsb is_fit (trace (snd (run keras_without_training (calm w)))) = false /\
  exists d,
    in_order [creates_from "keras_model.hd5" d; calls "set_title" d; calls "set_name" d;
              calls "set_domains" d; calls "to_dict" d; publishes d]
      (trace (snd (run keras_without_training (calm w)))) = true.
Proof.
  pose proof (run_prefix _ w lawful_keras_without_training) as P.
  eassert (C : run keras_without_training (calm w) = _) by (vm_compute; reflexivity).
  rewrite C in *. clear C. cbn [fst snd trace] in *.
  split; [|split].
  - intros e q He Hq.
    assert (F : forallb (fun e => match callable e with
                                  | Some q => negb (from_keras q)
                                  | None => true
                                  end) (trace (snd (run keras_without_training w))) = true)
      by (apply (prefix_forallb _ _ _ P); vm_compute; reflexivity).
    rewrite forallb_forall in F. specialize (F e He). rewrite Hq in F.
    apply negb_true_iff. exact F.
  - intros e x He Hx.
    assert (F : forallb (fun e => match touches e with
                                  | Some x => local_data_eqb x (File "keras_model.hd5")
                                  | None => true
                                  end) (trace (snd (run keras_without_training w))) = true)
      by (apply (prefix_forallb _ _ _ P); vm_compute; reflexivity).
    rewrite forallb_forall in F. specialize (F e He). rewrite Hx in F.
    apply local_data_eqb_eq. exact F.
  - split; [reflexivity|]. split; [reflexivity|]. split; [reflexivity|].
    exists {| oid := 1;
              cls := ["dlhub_sdk"; "models"; "servables"; "keras"; "KerasModel";
                      "create_model"] |}.
    vm_compute. reflexivity.
Qed.

(** ** From the fitted model to its descriptor *)

Lemma described_after_stored_prefix (t1 t2 : list Event) (s : Stored) :
  prefix t1 t2 -> described_after_stored s t2 = true -> described_after_stored s t1 = true.
Proof.
  intros [k ->]. revert s.
  induction t1 as [|e t1 IH]; intros s H; [reflexivity|].
  simpl in *. apply andb_prop in H. destruct H as [H1 H2].
  rewrite H1. simpl. exact (IH _ H2).
Qed.

Lemma keras_described_after_stored (libs : Libs) :
  described_after_stored nothing_stored
    (trace (snd (run KerasNotebook.notebook {| w_fault := fun _ => None; w_libs := libs |})))
  = true.
Proof.
  destruct libs as [[[x_train y_train] [x_test y_test]] fmt to_categorical read_csv].
  match goal with |- context [run ?nb ?w] => destruct (run nb w) as [r st] eqn:H end.
  calm_run H; injection H as <- <-; vm_compute; reflexivity.
Qed.

Lemma sklearn_described_after_stored (libs : Libs) :
  described_after_stored nothing_stored
    (trace (snd (run SklearnNotebook.notebook {| w_fault := fun _ => None; w_libs := libs |})))
  = true.
Proof.
  destruct libs as [[[x_train y_train] [x_test y_test]] fmt to_categorical read_csv].
  match goal with |- context [run ?nb ?w] => destruct (run nb w) as [r st] eqn:H end.
  calm_run H; injection H as <- <-; vm_compute; reflexivity.
Qed.

(** X13: In every run of either notebook, an SDK [create_model] call on a
    model artifact ([keras_model.hd5], [scikit_learn_model/model.pkl])
    comes only after the run has stored in that very file, by
    [model.save] or by [pkl.dump] into the file opened for writing, a
    model on which [fit] had been called: the descriptor is never made
    from a file the run did not write. *)
Theorem descriptor_made_from_stored_model (title : string) (nb : M unit) (w : World) :
  In (title, nb) notebooks ->
  described_after_stored nothing_stored (trace (snd (run nb w))) = true.
Proof.
  intros Hin.
  apply (described_after_stored_prefix _ (trace (snd (run nb (calm w))))).
  - apply run_prefix. exact (lawful_notebooks title nb Hin).
  - destruct Hin as [E | [E | []]]; injection E as _ <-;
      [apply keras_described_after_stored | apply sklearn_described_after_stored].
Qed.

(** The cells run without the training cell describe a file the run did
    not write. *)
Remark skipped_training_describes_older_file (w : World) :
  described_after_stored nothing_stored
    (trace (snd (run keras_without_training (calm w)))) = false.
Proof. vm_compute. reflexivity. Qed.

Lemma descriptor_made_from_stored_model_witness :
  In ("Publishing a Scikit-learn model", SklearnNotebook.notebook) notebooks /\
  described_after_stored nothing_stored
    (trace (snd (run SklearnNotebook.notebook (Sample.faulty 35 "ValueError")))) = true /\
  stored (fold_left record_step
            (trace (snd (run SklearnNotebook.notebook (Sample.faulty 35 "ValueError"))))
            nothing_stored)
  = ["scikit_learn_model/model.pkl"].
Proof.
  assert (Hin : In ("Publishing a Scikit-learn model", SklearnNotebook.notebook) notebooks)
    by (right; left; reflexivity).
  split; [exact Hin|].
  split; [|vm_compute; reflexivity].
  exact (descriptor_made_from_stored_model _ _ (Sample.faulty 35 "ValueError") Hin).
Defined.
